(** * A task-tracking REST backend (server.js) over a relational store

    The program is an Express application: every route handler runs a few
    parameterised SQL statements against a MySQL connection pool and shapes
    the rows into a JSON response.  The development below embeds

    - the three tables of [initDatabase] with their column constraints,
    - the statements the handlers issue, as functions on the tables,
    - the handlers themselves, in a small state-and-exception monad that
      follows the [try]/[catch] structure of the source,

    and then states the properties of the handlers as theorems.

    Modelling conventions.
    - A text value is a sequence of Unicode code points.
    - Requests are served one after the other, so the pool hands out one and
      the same connection; a connection is the visible tables, the snapshot
      of an open transaction (if any) and the AUTO_INCREMENT counters.
    - The store runs in strict SQL mode: a value that does not fit its column
      makes the statement fail and changes no row.  The store is always
      reachable; a statement fails only on a constraint of the schema.
    - JSON bodies are typed as the routes document them: texts, booleans,
      lists of texts; a missing field, [null] and [undefined] are [None].
      The path parameter [:id] is an integer.
    - In the handlers a BOOLEAN column is the flag JavaScript reads from it;
      the statistics are also given on the integer the store holds
      (TINYINT(1)), where the two differ.  Columns the handlers never write
      NULL to have no NULL in their type.
    - A table is the list of its rows in the order in which the engine scans
      them: an INSERT appends, and a SELECT without ORDER BY returns the
      rows in that order. *)

From Stdlib Require Import ZArith NArith List Bool Lia String Ascii.
From Stdlib Require Import Permutation Sorted.
Import ListNotations.
Open Scope Z_scope.

(** ** Text values and the JavaScript operators used on them *)

Definition text := list N.

(** A literal of the source as a text value. *)
Definition lit (s : string) : text :=
  map N_of_ascii (list_ascii_of_string s).

Fixpoint text_eqb (a b : text) : bool :=
  match a, b with
  | [], [] => true
  | x :: a', y :: b' => N.eqb x y && text_eqb a' b'
  | _, _ => false
  end.

(** The code points [String.prototype.trim] strips: ECMAScript WhiteSpace and
    LineTerminator. *)
Definition is_white_space (c : N) : bool :=
  ((9 <=? c) && (c <=? 13))%N
  || N.eqb c 32 || N.eqb c 160 || N.eqb c 5760
  || ((8192 <=? c) && (c <=? 8202))%N
  || N.eqb c 8232 || N.eqb c 8233 || N.eqb c 8239
  || N.eqb c 8287 || N.eqb c 12288 || N.eqb c 65279.

Fixpoint trimStart (s : text) : text :=
  match s with
  | [] => []
  | c :: r => if is_white_space c then trimStart r else s
  end.

Definition trimEnd (s : text) : text := rev (trimStart (rev s)).

Definition trim (s : text) : text := trimEnd (trimStart s).

(** Truthiness of an optional text: [undefined], [null] and [''] are falsy. *)
Definition truthy (v : option text) : bool :=
  match v with
  | Some (_ :: _) => true
  | _ => false
  end.

(** [v || d] with a text default, as in [priority || 'medium']. *)
Definition or_text (v : option text) (d : text) : text :=
  match v with
  | Some (c :: r) => c :: r
  | _ => d
  end.

(** [v || null] on an optional text: [''] becomes [null]. *)
Definition or_null (v : option text) : option text :=
  if truthy v then v else None.

(** [v || false] on an optional boolean. *)
Definition or_false (v : option bool) : bool :=
  match v with
  | Some b => b
  | None => false
  end.

(** ** The schema of [initDatabase] *)

Inductive Priority := low | medium | high.

Definition Priority_eqb (a b : Priority) : bool :=
  match a, b with
  | low, low | medium, medium | high, high => true
  | _, _ => false
  end.

(** A calendar date is a day number, a timestamp a second number; the day of
    a timestamp is [CURDATE()] when the timestamp is the server clock. *)
Definition date := Z.
Definition timestamp := Z.
Definition CURDATE (now : timestamp) : date := now / 86400.

(** [v || null] on an optional date: a date given is kept. *)
Definition or_null_date (v : option date) : option date :=
  match v with
  | Some d => Some d
  | None => None
  end.

Module Task.
Record row := mk {
  id : Z;
  title : text;
  description : option text;
  priority : Priority;
  due_date : option date;
  completed : bool;
  created_at : timestamp;
  updated_at : timestamp
}.
End Task.

Module Tag.
Record row := mk {
  id : Z;
  task_id : Z;
  tag_name : text
}.
End Tag.

Module Subtask.
Record row := mk {
  id : Z;
  task_id : Z;
  text : text;
  completed : bool;
  created_at : timestamp
}.
End Subtask.

Record Tables := mkTables {
  tasks : list Task.row;
  tags : list Tag.row;
  subtasks : list Subtask.row
}.

(** *** Column constraints *)

(** VARCHAR(n) counts characters. *)
Definition fits_varchar (n : nat) (s : text) : bool :=
  (List.length s <=? n)%nat.

(** TEXT holds at most 65535 bytes of UTF-8. *)
Definition utf8_bytes (c : N) : Z :=
  if (c <? 128)%N then 1
  else if (c <? 2048)%N then 2
  else if (c <? 65536)%N then 3
  else 4.

Definition utf8_length (s : text) : Z :=
  fold_right (fun c n => utf8_bytes c + n) 0 s.

Definition fits_text (s : text) : bool := utf8_length s <=? 65535.

(** ENUM('low', 'medium', 'high'): the three names, compared exactly; any
    other value is rejected. *)
Definition enum_priority (s : text) : option Priority :=
  if text_eqb s (lit "low") then Some low
  else if text_eqb s (lit "medium") then Some medium
  else if text_eqb s (lit "high") then Some high
  else None.

Definition opt_fits (fits : text -> bool) (v : option text) : bool :=
  match v with
  | Some s => fits s
  | None => true
  end.

(** ** The connection *)

(** [visible] is what a statement on the connection reads and writes;
    [snapshot] is [Some t] while a transaction is open, [t] being the tables
    when it began.  The AUTO_INCREMENT counters are outside the transaction: a
    rollback does not give identifiers back. *)
Record Conn := mkConn {
  visible : Tables;
  snapshot : option Tables;
  next_task : Z;
  next_tag : Z;
  next_subtask : Z
}.

(** A promise either resolves with a value or rejects. *)
Inductive outcome (A : Type) : Type :=
| Resolved (a : A)
| Rejected.
Arguments Resolved {A} a.
Arguments Rejected {A}.

(** An asynchronous computation on the connection. *)
Definition Query (A : Type) : Type := Conn -> outcome A * Conn.

Definition ret {A : Type} (a : A) : Query A := fun c => (Resolved a, c).

Definition bind {A B : Type} (m : Query A) (k : A -> Query B) : Query B :=
  fun c =>
    match m c with
    | (Resolved a, c') => k a c'
    | (Rejected, c') => (Rejected, c')
    end.

(** [try { body } catch (error) { handler }]. *)
Definition try_catch {A : Type} (body handler : Query A) : Query A :=
  fun c =>
    match body c with
    | (Resolved a, c') => (Resolved a, c')
    | (Rejected, c') => handler c'
    end.

Declare Scope query_scope.
Delimit Scope query_scope with query.
Notation "x <- m ;; k" := (bind m (fun x => k))
  (at level 100, m at next level, right associativity) : query_scope.
Notation "m ;; k" := (bind m (fun _ => k))
  (at level 100, right associativity) : query_scope.
Open Scope query_scope.

(** A statement that only reads. *)
Definition reading {A : Type} (f : Tables -> A) : Query A :=
  fun c => (Resolved (f (visible c)), c).

Definition with_visible (c : Conn) (t : Tables) : Conn :=
  mkConn t (snapshot c) (next_task c) (next_tag c) (next_subtask c).

(** *** Transactions *)

(** START TRANSACTION commits a transaction left open on the connection. *)
Definition beginTransaction : Query unit :=
  fun c => (Resolved tt,
            mkConn (visible c) (Some (visible c))
                   (next_task c) (next_tag c) (next_subtask c)).

Definition commit : Query unit :=
  fun c => (Resolved tt,
            mkConn (visible c) None
                   (next_task c) (next_tag c) (next_subtask c)).

Definition rollback : Query unit :=
  fun c => (Resolved tt,
            mkConn (match snapshot c with
                    | Some t => t
                    | None => visible c
                    end)
                   None (next_task c) (next_tag c) (next_subtask c)).

(** ** The statements of the handlers *)

Definition has_task (t : Tables) (i : Z) : bool :=
  existsb (fun r => Task.id r =? i) (tasks t).

Definition has_tag (t : Tables) (i : Z) : bool :=
  existsb (fun r => Tag.id r =? i) (tags t).

Definition has_subtask (t : Tables) (i : Z) : bool :=
  existsb (fun r => Subtask.id r =? i) (subtasks t).

(** The three columns the handlers select from [subtasks]. *)
Module SubtaskItem.
Record t := mk {
  id : Z;
  text : text;
  completed : bool
}.
End SubtaskItem.

Definition subtask_item (r : Subtask.row) : SubtaskItem.t :=
  SubtaskItem.mk (Subtask.id r) (Subtask.text r) (Subtask.completed r).

(** ORDER BY: a stable insertion sort. *)
Fixpoint insert_by {A : Type} (le : A -> A -> bool) (x : A) (l : list A)
  : list A :=
  match l with
  | [] => [x]
  | y :: r => if le x y then x :: l else y :: insert_by le x r
  end.

Definition order_by {A : Type} (le : A -> A -> bool) (l : list A) : list A :=
  fold_right (insert_by le) [] l.

(** SELECT * FROM tasks ORDER BY created_at DESC *)
Definition SELECT_tasks : Query (list Task.row) :=
  reading (fun t =>
    order_by (fun a b => Task.created_at b <=? Task.created_at a) (tasks t)).

(** SELECT * FROM tasks WHERE id = ? (also SELECT id ..., whose rows the
    handler only counts) *)
Definition SELECT_task (i : Z) : Query (list Task.row) :=
  reading (fun t => filter (fun r => Task.id r =? i) (tasks t)).

(** SELECT completed FROM tasks WHERE id = ? *)
Definition SELECT_task_completed (i : Z) : Query (list bool) :=
  reading (fun t =>
    map Task.completed (filter (fun r => Task.id r =? i) (tasks t))).

(** SELECT tag_name FROM tags WHERE task_id = ? *)
Definition SELECT_tags (i : Z) : Query (list Tag.row) :=
  reading (fun t => filter (fun r => Tag.task_id r =? i) (tags t)).

(** SELECT id, text, completed FROM subtasks WHERE task_id = ? *)
Definition SELECT_subtasks (i : Z) : Query (list SubtaskItem.t) :=
  reading (fun t =>
    map subtask_item (filter (fun r => Subtask.task_id r =? i) (subtasks t))).

(** SELECT id, text, completed FROM subtasks WHERE task_id = ? ORDER BY id *)
Definition SELECT_subtasks_ORDER_BY_id (i : Z) : Query (list SubtaskItem.t) :=
  reading (fun t =>
    map subtask_item
      (order_by (fun a b => Subtask.id a <=? Subtask.id b)
         (filter (fun r => Subtask.task_id r =? i) (subtasks t)))).

(** SELECT completed FROM subtasks WHERE id = ? *)
Definition SELECT_subtask_completed (i : Z) : Query (list bool) :=
  reading (fun t =>
    map Subtask.completed (filter (fun r => Subtask.id r =? i) (subtasks t))).

(** INSERT INTO tasks (title, description, priority, due_date) VALUES (?, ?, ?, ?)
    resolves with the insertId.  The columns left out take their defaults:
    completed FALSE, both timestamps CURRENT_TIMESTAMP.  The statement fails
    on a NULL title (NOT NULL), a title beyond VARCHAR(255), a description
    beyond TEXT, a priority outside the ENUM and an id already in use
    (PRIMARY KEY). *)
Definition INSERT_task (title description : option text) (priority : text)
    (due_date : option date) (now : timestamp) : Query Z :=
  fun c =>
    match title, enum_priority priority with
    | Some s, Some p =>
        if fits_varchar 255 s && opt_fits fits_text description
           && negb (has_task (visible c) (next_task c))
        then
          let r := Task.mk (next_task c) s description p due_date false now now in
          (Resolved (next_task c),
           mkConn (mkTables (tasks (visible c) ++ [r]) (tags (visible c))
                            (subtasks (visible c)))
                  (snapshot c) (next_task c + 1) (next_tag c) (next_subtask c))
        else (Rejected, c)
    | _, _ => (Rejected, c)
    end.

(** The rows of a bulk INSERT take consecutive identifiers. *)
Fixpoint number_tags (next : Z) (values : list (Z * text)) : list Tag.row :=
  match values with
  | [] => []
  | (i, n) :: r => Tag.mk next i n :: number_tags (next + 1) r
  end.

(** INSERT INTO tags (task_id, tag_name) VALUES ?  fails as a whole when a
    row has a name beyond VARCHAR(100), a task_id without task (FOREIGN KEY)
    or an id already in use. *)
Definition INSERT_tags (values : list (Z * text)) : Query unit :=
  fun c =>
    let rows := number_tags (next_tag c) values in
    if forallb (fun r => fits_varchar 100 (Tag.tag_name r)
                         && has_task (visible c) (Tag.task_id r)
                         && negb (has_tag (visible c) (Tag.id r))) rows
    then
      (Resolved tt,
       mkConn (mkTables (tasks (visible c)) (tags (visible c) ++ rows)
                        (subtasks (visible c)))
              (snapshot c) (next_task c)
              (next_tag c + Z.of_nat (List.length rows)) (next_subtask c))
    else (Rejected, c).

(** A subtask row to insert: task_id, text (NULL when the entry has none) and
    completed. *)
Definition subtask_values : Type := Z * option text * bool.

Fixpoint number_subtasks (next : Z) (now : timestamp)
    (values : list (Z * text * bool)) : list Subtask.row :=
  match values with
  | [] => []
  | (i, s, b) :: r =>
      Subtask.mk next i s b now :: number_subtasks (next + 1) now r
  end.

(** The texts of the values, when none is NULL. *)
Fixpoint not_null (values : list subtask_values) : option (list (Z * text * bool)) :=
  match values with
  | [] => Some []
  | (i, Some s, b) :: r =>
      match not_null r with
      | Some r' => Some ((i, s, b) :: r')
      | None => None
      end
  | (_, None, _) :: _ => None
  end.

(** INSERT INTO subtasks (task_id, text, completed) VALUES ?  fails as a
    whole when a row has a NULL text (NOT NULL), a text beyond VARCHAR(255),
    a task_id without task or an id already in use. *)
Definition INSERT_subtasks (values : list subtask_values) (now : timestamp)
  : Query unit :=
  fun c =>
    match not_null values with
    | Some vs =>
        let rows := number_subtasks (next_subtask c) now vs in
        if forallb (fun r => fits_varchar 255 (Subtask.text r)
                             && has_task (visible c) (Subtask.task_id r)
                             && negb (has_subtask (visible c) (Subtask.id r))) rows
        then
          (Resolved tt,
           mkConn (mkTables (tasks (visible c)) (tags (visible c))
                            (subtasks (visible c) ++ rows))
                  (snapshot c) (next_task c) (next_tag c)
                  (next_subtask c + Z.of_nat (List.length rows)))
        else (Rejected, c)
    | None => (Rejected, c)
    end.

(** INSERT INTO subtasks (task_id, text) VALUES ?  -- completed DEFAULT FALSE *)
Definition INSERT_subtasks_text (values : list (Z * text)) (now : timestamp)
  : Query unit :=
  INSERT_subtasks (map (fun v => (fst v, Some (snd v), false)) values) now.

Definition option_eqb {A : Type} (eqb : A -> A -> bool) (a b : option A)
  : bool :=
  match a, b with
  | Some x, Some y => eqb x y
  | None, None => true
  | _, _ => false
  end.

(** ON UPDATE CURRENT_TIMESTAMP: [updated_at] moves when the UPDATE changes
    the value of another column of the row, and only then. *)
Definition set_task (r : Task.row) (s : text) (d : option text)
    (p : Priority) (due : option date) (b : bool) (now : timestamp)
  : Task.row :=
  if text_eqb (Task.title r) s
     && option_eqb text_eqb (Task.description r) d
     && Priority_eqb (Task.priority r) p
     && option_eqb Z.eqb (Task.due_date r) due
     && Bool.eqb (Task.completed r) b
  then r
  else Task.mk (Task.id r) s d p due b (Task.created_at r) now.

(** UPDATE tasks SET title = ?, description = ?, priority = ?, due_date = ?,
    completed = ? WHERE id = ?  fails on the values INSERT fails on; an
    empty title is a value of VARCHAR(255) NOT NULL like any other. *)
Definition UPDATE_task (title description : option text) (priority : text)
    (due_date : option date) (completed : bool) (i : Z) (now : timestamp)
  : Query unit :=
  fun c =>
    match title, enum_priority priority with
    | Some s, Some p =>
        if fits_varchar 255 s && opt_fits fits_text description
        then
          (Resolved tt,
           with_visible c
             (mkTables
                (map (fun r => if Task.id r =? i
                               then set_task r s description p due_date completed now
                               else r)
                     (tasks (visible c)))
                (tags (visible c)) (subtasks (visible c))))
        else (Rejected, c)
    | _, _ => (Rejected, c)
    end.

(** UPDATE tasks SET completed = ? WHERE id = ? *)
Definition UPDATE_task_completed (completed : bool) (i : Z) (now : timestamp)
  : Query unit :=
  fun c =>
    (Resolved tt,
     with_visible c
       (mkTables
          (map (fun r => if Task.id r =? i
                         then set_task r (Task.title r) (Task.description r)
                                (Task.priority r) (Task.due_date r) completed now
                         else r)
               (tasks (visible c)))
          (tags (visible c)) (subtasks (visible c)))).

(** UPDATE subtasks SET completed = ? WHERE id = ? *)
Definition UPDATE_subtask_completed (completed : bool) (i : Z) : Query unit :=
  fun c =>
    (Resolved tt,
     with_visible c
       (mkTables (tasks (visible c)) (tags (visible c))
          (map (fun r => if Subtask.id r =? i
                         then Subtask.mk (Subtask.id r) (Subtask.task_id r)
                                (Subtask.text r) completed (Subtask.created_at r)
                         else r)
               (subtasks (visible c))))).

(** DELETE FROM tags WHERE task_id = ? *)
Definition DELETE_tags (i : Z) : Query unit :=
  fun c =>
    (Resolved tt,
     with_visible c
       (mkTables (tasks (visible c))
          (filter (fun r => negb (Tag.task_id r =? i)) (tags (visible c)))
          (subtasks (visible c)))).

(** DELETE FROM subtasks WHERE task_id = ? *)
Definition DELETE_subtasks (i : Z) : Query unit :=
  fun c =>
    (Resolved tt,
     with_visible c
       (mkTables (tasks (visible c)) (tags (visible c))
          (filter (fun r => negb (Subtask.task_id r =? i))
                  (subtasks (visible c))))).

(** DELETE FROM tasks WHERE id = ?  resolves with affectedRows; a deleted row
    takes the tags and subtasks that reference it along (ON DELETE CASCADE). *)
Definition DELETE_task (i : Z) : Query nat :=
  fun c =>
    let t := visible c in
    let hit := filter (fun r => Task.id r =? i) (tasks t) in
    match hit with
    | [] => (Resolved 0%nat, c)
    | _ :: _ =>
        (Resolved (List.length hit),
         with_visible c
           (mkTables
              (filter (fun r => negb (Task.id r =? i)) (tasks t))
              (filter (fun r => negb (Tag.task_id r =? i)) (tags t))
              (filter (fun r => negb (Subtask.task_id r =? i)) (subtasks t))))
    end.

(** *** WHERE clauses of the statistics: SQL's three-valued logic *)

Definition sql_bool := option bool.

(** [completed = TRUE], [completed = FALSE]. *)
Definition sql_eq (a b : bool) : sql_bool := Some (Bool.eqb a b).

(** [a < b] is NULL when a side is NULL. *)
Definition sql_lt (a b : option date) : sql_bool :=
  match a, b with
  | Some x, Some y => Some (x <? y)
  | _, _ => None
  end.

Definition sql_and (a b : sql_bool) : sql_bool :=
  match a, b with
  | Some false, _ | _, Some false => Some false
  | Some true, Some true => Some true
  | _, _ => None
  end.

(** A row is selected when its WHERE clause is TRUE (not FALSE, not NULL). *)
Definition selected (v : sql_bool) : bool :=
  match v with
  | Some true => true
  | _ => false
  end.

Definition COUNT {A : Type} (where_ : A -> sql_bool) (l : list A) : Z :=
  Z.of_nat (List.length (filter (fun r => selected (where_ r)) l)).

(** SELECT COUNT( * ) as total FROM tasks *)
Definition SELECT_COUNT_total : Query Z :=
  reading (fun t => Z.of_nat (List.length (tasks t))).

(** SELECT COUNT( * ) as completed FROM tasks WHERE completed = TRUE, on the
    flag of each row; [stored_stats] below has the query on the integer the
    column holds. *)
Definition SELECT_COUNT_completed : Query Z :=
  reading (fun t => COUNT (fun r => sql_eq (Task.completed r) true) (tasks t)).

(** SELECT COUNT( * ) as active FROM tasks WHERE completed = FALSE, on the
    flag of each row. *)
Definition SELECT_COUNT_active : Query Z :=
  reading (fun t => COUNT (fun r => sql_eq (Task.completed r) false) (tasks t)).

(** SELECT COUNT( * ) as overdue FROM tasks
    WHERE completed = FALSE AND due_date < CURDATE() *)
Definition SELECT_COUNT_overdue (now : timestamp) : Query Z :=
  reading (fun t =>
    COUNT (fun r => sql_and (sql_eq (Task.completed r) false)
                            (sql_lt (Task.due_date r) (Some (CURDATE now))))
          (tasks t)).

(** ** Requests and responses *)

(** A task with its tags and subtasks, as the handlers send it. *)
Module Enriched.
Record t := mk {
  task : Task.row;
  tags : list text;
  subtasks : list SubtaskItem.t
}.
End Enriched.

(** The body of POST /api/tasks. *)
Module CreateBody.
Record t := mk {
  title : option text;
  description : option text;
  priority : option text;
  due_date : option date;
  tags : option (list text);
  subtasks : option (list text)
}.
End CreateBody.

(** An entry of [subtasks] in the body of PUT /api/tasks/:id: a string, or
    an object with an optional [text] and an optional [completed]. *)
Inductive SubtaskEntry :=
| entry_string (s : text)
| entry_object (text : option text) (completed : option bool).

(** The body of PUT /api/tasks/:id. *)
Module UpdateBody.
Record t := mk {
  title : option text;
  description : option text;
  priority : option text;
  due_date : option date;
  completed : option bool;
  tags : option (list text);
  subtasks : option (list SubtaskEntry)
}.
End UpdateBody.

Inductive Body :=
| error_body (error : string)
| task_body (task : Enriched.t)
| tasks_body (tasks : list Enriched.t)
| toggle_body (id : Z) (completed : bool)
| deleted_body (message : string) (id : Z)
| stats_body (total completed active overdue : Z).

Record Response := mkResponse {
  status : Z;
  body : Body
}.

(** [res.json(b)] and [res.status(s).json(b)]. *)
Definition json (b : Body) : Query Response := ret (mkResponse 200 b).
Definition status_json (s : Z) (b : Body) : Query Response :=
  ret (mkResponse s b).

(** A TypeError thrown by the handler itself. *)
Definition throw {A : Type} : Query A := fun c => (Rejected, c).

(** ** The handlers *)

(** [for (let task of tasks) { ... }] *)
Fixpoint for_each {A B : Type} (f : A -> Query B) (l : list A)
  : Query (list B) :=
  match l with
  | [] => ret []
  | a :: r => b <- f a ;; bs <- for_each f r ;; ret (b :: bs)
  end.

(** GET /api/tasks *)
Definition list_tasks : Query Response :=
  try_catch
    (tasks <- SELECT_tasks ;;
     tasks <- for_each (fun task =>
                tags <- SELECT_tags (Task.id task) ;;
                subtasks <- SELECT_subtasks_ORDER_BY_id (Task.id task) ;;
                ret (Enriched.mk task (map Tag.tag_name tags) subtasks))
              tasks ;;
     json (tasks_body tasks))
    (status_json 500 (error_body "Failed to fetch tasks")).

(** GET /api/tasks/:id *)
Definition get_task (id : Z) : Query Response :=
  try_catch
    (tasks <- SELECT_task id ;;
     match tasks with
     | [] => status_json 404 (error_body "Task not found")
     | task :: _ =>
         tags <- SELECT_tags (Task.id task) ;;
         subtasks <- SELECT_subtasks (Task.id task) ;;
         json (task_body (Enriched.mk task (map Tag.tag_name tags) subtasks))
     end)
    (status_json 500 (error_body "Failed to fetch task")).

(** [!title || title.trim() === ''] *)
Definition title_missing (title : option text) : bool :=
  negb (truthy title)
  || match title with
     | Some s => text_eqb (trim s) []
     | None => false
     end.

(** The task the create and update handlers send back after the commit;
    [tasks[0]] of an empty result is [undefined] and assigning to its [tags]
    throws. *)
Definition fetch_task (taskId : Z) : Query Enriched.t :=
  tasks <- SELECT_task taskId ;;
  match tasks with
  | [] => throw
  | task :: _ =>
      taskTags <- SELECT_tags taskId ;;
      taskSubtasks <- SELECT_subtasks taskId ;;
      ret (Enriched.mk task (map Tag.tag_name taskTags) taskSubtasks)
  end.

(** POST /api/tasks.  The [finally] block releases the connection to the
    pool, which leaves the connection as it is. *)
Definition create_task (b : CreateBody.t) (now : timestamp) : Query Response :=
  try_catch
    (beginTransaction ;;
     if title_missing (CreateBody.title b)
     then status_json 400 (error_body "Title is required")
     else
       taskId <- INSERT_task (CreateBody.title b)
                   (or_null (CreateBody.description b))
                   (or_text (CreateBody.priority b) (lit "medium"))
                   (or_null_date (CreateBody.due_date b)) now ;;
       match CreateBody.tags b with
       | Some ((_ :: _) as tags) =>
           INSERT_tags (map (fun tag => (taskId, tag)) tags)
       | _ => ret tt
       end ;;
       match CreateBody.subtasks b with
       | Some ((_ :: _) as subtasks) =>
           INSERT_subtasks_text (map (fun st => (taskId, st)) subtasks) now
       | _ => ret tt
       end ;;
       commit ;;
       task <- fetch_task taskId ;;
       status_json 201 (task_body task))
    (rollback ;;
     status_json 500 (error_body "Failed to create task")).

(** [typeof st === 'string' ? st : st.text] *)
Definition entry_text (st : SubtaskEntry) : option text :=
  match st with
  | entry_string s => Some s
  | entry_object t _ => t
  end.

(** [typeof st === 'object' ? (st.completed || false) : false] *)
Definition entry_completed (st : SubtaskEntry) : bool :=
  match st with
  | entry_string _ => false
  | entry_object _ c => or_false c
  end.

(** The writes of PUT /api/tasks/:id, between the existence check and the
    commit: the task row, then the tags and the subtasks, each deleted and
    inserted anew. *)
Definition update_writes (taskId : Z) (b : UpdateBody.t) (now : timestamp)
  : Query unit :=
  UPDATE_task (UpdateBody.title b)
    (or_null (UpdateBody.description b))
    (or_text (UpdateBody.priority b) (lit "medium"))
    (or_null_date (UpdateBody.due_date b))
    (or_false (UpdateBody.completed b)) taskId now ;;
  DELETE_tags taskId ;;
  match UpdateBody.tags b with
  | Some ((_ :: _) as tags) =>
      INSERT_tags (map (fun tag => (taskId, tag)) tags)
  | _ => ret tt
  end ;;
  DELETE_subtasks taskId ;;
  match UpdateBody.subtasks b with
  | Some ((_ :: _) as subtasks) =>
      INSERT_subtasks
        (map (fun st => (taskId, entry_text st, entry_completed st))
             subtasks) now
  | _ => ret tt
  end.

(** PUT /api/tasks/:id *)
Definition update_task (taskId : Z) (b : UpdateBody.t) (now : timestamp)
  : Query Response :=
  try_catch
    (beginTransaction ;;
     existing <- SELECT_task taskId ;;
     match existing with
     | [] => status_json 404 (error_body "Task not found")
     | _ :: _ =>
         update_writes taskId b now ;;
         commit ;;
         task <- fetch_task taskId ;;
         json (task_body task)
     end)
    (rollback ;;
     status_json 500 (error_body "Failed to update task")).

(** PATCH /api/tasks/:id/toggle *)
Definition toggle_task (id : Z) (now : timestamp) : Query Response :=
  try_catch
    (tasks <- SELECT_task_completed id ;;
     match tasks with
     | [] => status_json 404 (error_body "Task not found")
     | completed :: _ =>
         let newStatus := negb completed in
         UPDATE_task_completed newStatus id now ;;
         json (toggle_body id newStatus)
     end)
    (status_json 500 (error_body "Failed to toggle task")).

(** PATCH /api/subtasks/:id/toggle *)
Definition toggle_subtask (id : Z) : Query Response :=
  try_catch
    (subtasks <- SELECT_subtask_completed id ;;
     match subtasks with
     | [] => status_json 404 (error_body "Subtask not found")
     | completed :: _ =>
         let newStatus := negb completed in
         UPDATE_subtask_completed newStatus id ;;
         json (toggle_body id newStatus)
     end)
    (status_json 500 (error_body "Failed to toggle subtask")).

(** DELETE /api/tasks/:id *)
Definition delete_task (id : Z) : Query Response :=
  try_catch
    (affectedRows <- DELETE_task id ;;
     if (affectedRows =? 0)%nat
     then status_json 404 (error_body "Task not found")
     else json (deleted_body "Task deleted successfully" id))
    (status_json 500 (error_body "Failed to delete task")).

(** GET /api/stats *)
Definition get_stats (now : timestamp) : Query Response :=
  try_catch
    (total <- SELECT_COUNT_total ;;
     completed <- SELECT_COUNT_completed ;;
     active <- SELECT_COUNT_active ;;
     overdue <- SELECT_COUNT_overdue now ;;
     json (stats_body total completed active overdue))
    (status_json 500 (error_body "Failed to fetch statistics")).

(** ** Definitions the properties are stated with *)

(** A title is blank when it is missing, empty or white space only. *)
Definition blank_title (title : option text) : Prop :=
  match title with
  | None => True
  | Some s => forallb is_white_space s = true
  end.

(** The row [SELECT ... FROM tasks WHERE id = ?] finds first, if any. *)
Definition stored_task (c : Conn) (id : Z) : option Task.row :=
  head (filter (fun r => Task.id r =? id) (tasks (visible c))).

(** The tag names stored for a task, in scan order. *)
Definition stored_tags (c : Conn) (id : Z) : list text :=
  map Tag.tag_name (filter (fun r => Tag.task_id r =? id) (tags (visible c))).

(** The text and flag of each subtask stored for a task, in scan order. *)
Definition stored_subtasks (c : Conn) (id : Z) : list (text * bool) :=
  map (fun r => (Subtask.text r, Subtask.completed r))
      (filter (fun r => Subtask.task_id r =? id) (subtasks (visible c))).

(** A task is overdue when it is not completed and its due date is strictly
    before today; a task without a due date is not. *)
Definition overdue (today : date) (r : Task.row) : bool :=
  negb (Task.completed r)
  && match Task.due_date r with
     | Some d => d <? today
     | None => false
     end.

(** The tags an update request supplies: its list, or none when the list is
    absent. *)
Definition supplied_tags (b : UpdateBody.t) : list text :=
  match UpdateBody.tags b with
  | Some l => l
  | None => []
  end.


(** The entries of [subtasks] in an update request, none when absent. *)
Definition entries (b : UpdateBody.t) : list SubtaskEntry :=
  match UpdateBody.subtasks b with
  | Some l => l
  | None => []
  end.

(** The connection once [beginTransaction] has run on it. *)
Definition begun (c : Conn) : Conn := snd (beginTransaction c).

(** The AUTO_INCREMENT counters of two connections agree. *)
Definition same_counters (c c' : Conn) : Prop :=
  next_task c' = next_task c /\ next_tag c' = next_tag c
  /\ next_subtask c' = next_subtask c.

(** A store with one task, two tags and two subtasks, and an empty one. *)
Definition empty_conn : Conn := mkConn (mkTables [] [] []) None 1 1 1.

Definition sample_conn : Conn :=
  mkConn
    (mkTables
       [Task.mk 1 (lit "write report") None medium (Some 19000) false 100 100]
       [Tag.mk 1 1 (lit "work"); Tag.mk 2 1 (lit "urgent")]
       [Subtask.mk 1 1 (lit "outline") false 100;
        Subtask.mk 2 1 (lit "draft") true 100])
    None 2 3 3.

(** A creation request and an update request used as examples. *)
Definition sample_create : CreateBody.t :=
  CreateBody.mk (Some (lit "buy milk")) (Some (lit "two litres"))
                (Some (lit "high")) (Some 19010)
                (Some [lit "home"; lit "shop"])
                (Some [lit "find bag"; lit "go out"]).

Definition sample_update : UpdateBody.t :=
  UpdateBody.mk (Some (lit "write the report")) None (Some (lit "low")) None
                (Some true) (Some [])
                (Some [entry_string (lit "outline");
                       entry_object (Some (lit "figures")) (Some true)]).

(** The store after [sample_create] on the empty store. *)
Definition created_conn : Conn :=
  Eval vm_compute in snd (create_task sample_create 500 empty_conn).

(** An update request whose second tag is longer than the 100 characters of
    [tag_name]. *)
Definition long_tag_update : UpdateBody.t :=
  UpdateBody.mk (Some (lit "write the report")) None None None None
                (Some [lit "office"; repeat 120%N 101])
                (Some [entry_string (lit "outline")]).

(** A computation leaves the transaction of the connection as it is. *)
Definition keeps_snapshot {A : Type} (m : Query A) : Prop :=
  forall c o c', m c = (o, c') -> snapshot c' = snapshot c.

(** An update request with an empty title, and one with a title of spaces. *)
Definition empty_title_update : UpdateBody.t :=
  UpdateBody.mk (Some (lit "")) None None None None None None.

Definition spaces_title_update : UpdateBody.t :=
  UpdateBody.mk (Some (lit "   ")) None None None None None None.

(** Ascending identifiers. *)
Fixpoint ascending (l : list Z) : bool :=
  match l with
  | [] => true
  | a :: r =>
      match r with
      | [] => true
      | b :: _ => (a <=? b) && ascending r
      end
  end.

Definition subtask_ids (t : Enriched.t) : list Z :=
  map SubtaskItem.id (Enriched.subtasks t).

(** The AUTO_INCREMENT counters are beyond every identifier in use, as they
    are when every row was inserted through them. *)
Definition fresh_counters (c : Conn) : Prop :=
  (forall r, In r (tasks (visible c)) -> Task.id r < next_task c)
  /\ (forall r, In r (tags (visible c)) -> Tag.id r < next_tag c)
  /\ (forall r, In r (subtasks (visible c)) -> Subtask.id r < next_subtask c).

(** A creation request the schema accepts: a title that is not blank and at
    most 255 characters, a description that fits TEXT, a priority of the
    enumeration (or none), tags of at most 100 characters and subtasks of at
    most 255. *)
Definition acceptable (b : CreateBody.t) : bool :=
  negb (title_missing (CreateBody.title b))
  && opt_fits (fits_varchar 255) (CreateBody.title b)
  && opt_fits fits_text (or_null (CreateBody.description b))
  && match enum_priority (or_text (CreateBody.priority b) (lit "medium")) with
     | Some _ => true
     | None => false
     end
  && match CreateBody.tags b with
     | Some l => forallb (fits_varchar 100) l
     | None => true
     end
  && match CreateBody.subtasks b with
     | Some l => forallb (fits_varchar 255) l
     | None => true
     end.

(** ** Definitions for the further properties *)

(** The tags and the subtasks a creation request submits: its lists, or none
    when a list is absent. *)
Definition submitted_tags (b : CreateBody.t) : list text :=
  match CreateBody.tags b with
  | Some l => l
  | None => []
  end.

Definition submitted_subtasks (b : CreateBody.t) : list text :=
  match CreateBody.subtasks b with
  | Some l => l
  | None => []
  end.

(** The two optional bulk inserts of POST /api/tasks (lines 167-183). *)
Definition create_tags (taskId : Z) (b : CreateBody.t) : Query unit :=
  match CreateBody.tags b with
  | Some ((_ :: _) as tags) =>
      INSERT_tags (map (fun tag => (taskId, tag)) tags)
  | _ => ret tt
  end.

Definition create_subtasks (taskId : Z) (b : CreateBody.t) (now : timestamp)
  : Query unit :=
  match CreateBody.subtasks b with
  | Some ((_ :: _) as subtasks) =>
      INSERT_subtasks_text (map (fun st => (taskId, st)) subtasks) now
  | _ => ret tt
  end.

(** The connection once [commit], or [rollback], has run on it. *)
Definition committed (c : Conn) : Conn := snd (commit c).
Definition rolled_back (c : Conn) : Conn := snd (rollback c).

(** Every tag and every subtask references a task of the store (the two
    FOREIGN KEY constraints). *)
Definition referential (t : Tables) : bool :=
  forallb (fun g => has_task t (Tag.task_id g)) (tags t)
  && forallb (fun s => has_task t (Subtask.task_id s)) (subtasks t).


(** A creation request whose second subtask is longer than the 255
    characters of [text]. *)
Definition long_subtask_create : CreateBody.t :=
  CreateBody.mk (Some (lit "plan trip")) None None None
                (Some [lit "travel"])
                (Some [lit "book"; repeat 120%N 256]).

(** The row a creation inserts. *)
Definition created_row (b : CreateBody.t) (now : timestamp) (c : Conn)
    (s : text) (pr : Priority) : Task.row :=
  Task.mk (next_task c) s (or_null (CreateBody.description b)) pr
          (or_null_date (CreateBody.due_date b)) false now now.

(** The connection a creation leaves when all its statements succeed. *)
Definition created (b : CreateBody.t) (now : timestamp) (c : Conn)
    (s : text) (pr : Priority) : Conn :=
  mkConn
    (mkTables
       (tasks (visible c) ++ [created_row b now c s pr])
       (tags (visible c)
        ++ number_tags (next_tag c)
             (map (fun tag => (next_task c, tag)) (submitted_tags b)))
       (subtasks (visible c)
        ++ number_subtasks (next_subtask c) now
             (map (fun st => (next_task c, st, false)) (submitted_subtasks b))))
    None (next_task c + 1)
    (next_tag c + Z.of_nat (List.length (submitted_tags b)))
    (next_subtask c + Z.of_nat (List.length (submitted_subtasks b))).


(** A subtask item with its flag set. *)
Definition with_completed (b : bool) (s : SubtaskItem.t) : SubtaskItem.t :=
  SubtaskItem.mk (SubtaskItem.id s) (SubtaskItem.text s) b.

(** The entry GET /api/tasks builds for a task row: its tags and its
    subtasks ordered by id. *)
Definition listed (c : Conn) (task : Task.row) : Enriched.t :=
  Enriched.mk task
    (map Tag.tag_name
       (filter (fun r => Tag.task_id r =? Task.id task) (tags (visible c))))
    (map subtask_item
       (order_by (fun a b => Subtask.id a <=? Subtask.id b)
          (filter (fun r => Subtask.task_id r =? Task.id task)
                  (subtasks (visible c))))).

(** Newest first: [a] may come before [b]. *)
Definition newer_or_same (a b : Task.row) : Prop :=
  Task.created_at b <= Task.created_at a.


(** The store after [sample_create] on [sample_conn]: two tasks. *)
Definition two_tasks_conn : Conn :=
  Eval vm_compute in snd (create_task sample_create 500 sample_conn).

(** The AUTO_INCREMENT counters never go back. *)
Definition counters_le (c c' : Conn) : Prop :=
  next_task c <= next_task c' /\ next_tag c <= next_tag c'
  /\ next_subtask c <= next_subtask c'.

(** A computation never lowers a counter. *)
Definition grows {A : Type} (m : Query A) : Prop :=
  forall c o c', m c = (o, c') -> counters_le c c'.

(** The identifiers of each table are distinct (the three PRIMARY KEYs) and
    below the counters. *)
Definition keys_ok (c : Conn) : Prop :=
  NoDup (map Task.id (tasks (visible c)))
  /\ NoDup (map Tag.id (tags (visible c)))
  /\ NoDup (map Subtask.id (subtasks (visible c)))
  /\ fresh_counters c.

(** The connection an update leaves when all its writes succeed: the rows of
    the task rewritten, its tags and subtasks replaced. *)
Definition updated (id : Z) (b : UpdateBody.t) (now : timestamp) (c : Conn)
    (s : text) (pr : Priority) (vs : list (Z * text * bool)) : Conn :=
  mkConn
    (mkTables
       (map (fun r => if Task.id r =? id
                      then set_task r s (or_null (UpdateBody.description b)) pr
                             (or_null_date (UpdateBody.due_date b))
                             (or_false (UpdateBody.completed b)) now
                      else r)
            (tasks (visible c)))
       (filter (fun r => negb (Tag.task_id r =? id)) (tags (visible c))
        ++ number_tags (next_tag c)
             (map (fun tag => (id, tag)) (supplied_tags b)))
       (filter (fun r => negb (Subtask.task_id r =? id)) (subtasks (visible c))
        ++ number_subtasks (next_subtask c) now vs))
    None (next_task c)
    (next_tag c + Z.of_nat (List.length (supplied_tags b)))
    (next_subtask c + Z.of_nat (List.length vs)).

(** ** Requests in sequence *)

(** The routes that read or write the store. *)
Inductive Request :=
| GET_tasks
| GET_tasks_id (id : Z)
| POST_tasks (b : CreateBody.t)
| PUT_tasks_id (id : Z) (b : UpdateBody.t)
| PATCH_tasks_id_toggle (id : Z)
| PATCH_subtasks_id_toggle (id : Z)
| DELETE_tasks_id (id : Z)
| GET_stats.

(** The handler the application registers for a route. *)
Definition route (r : Request) (now : timestamp) : Query Response :=
  match r with
  | GET_tasks => list_tasks
  | GET_tasks_id id => get_task id
  | POST_tasks b => create_task b now
  | PUT_tasks_id id b => update_task id b now
  | PATCH_tasks_id_toggle id => toggle_task id now
  | PATCH_subtasks_id_toggle id => toggle_subtask id
  | DELETE_tasks_id id => delete_task id
  | GET_stats => get_stats now
  end.

(** The connection after a sequence of requests, each with the time at which
    it is served. *)
Fixpoint serve (history : list (Request * timestamp)) (c : Conn) : Conn :=
  match history with
  | [] => c
  | (r, now) :: rest => serve rest (snd (route r now c))
  end.

(** The enriched tasks in an answer. *)
Definition sent_tasks (o : outcome Response) : list Enriched.t :=
  match o with
  | Resolved (mkResponse _ (task_body t)) => [t]
  | Resolved (mkResponse _ (tasks_body l)) => l
  | _ => []
  end.

(** The subtasks table is scanned in ascending id order, below the counter. *)
Definition in_id_order (c : Conn) : Prop :=
  StronglySorted Z.lt (map Subtask.id (subtasks (visible c)))
  /\ forall r, In r (subtasks (visible c)) -> Subtask.id r < next_subtask c.

(** A sequence of requests: a creation with two subtasks, an update that
    replaces them by two others, a creation, a subtask toggle and a
    deletion. *)
Definition sample_history : list (Request * timestamp) :=
  [(POST_tasks sample_create, 500);
   (PUT_tasks_id 1 sample_update, 600);
   (POST_tasks sample_create, 700);
   (PATCH_subtasks_id_toggle 4, 800);
   (DELETE_tasks_id 7, 900)].

(** ** The completed column as the store holds it *)

(** BOOLEAN is TINYINT(1): the column holds an integer, TRUE is the integer
    1 and FALSE the integer 0.  The statistics compare the column with TRUE
    and with FALSE, so they are given here on the integer.  A stored task
    has the columns the statistics read. *)
Module Stored.
Record task := mk {
  id : Z;
  due_date : option date;
  completed : Z
}.
End Stored.

(** What the body of a PUT may carry as [completed]: nothing, a boolean or
    an integral number. *)
Inductive Completed :=
| completed_absent
| completed_boolean (b : bool)
| completed_number (n : Z).

(** [completed || false]: [undefined], [null], [false] and [0] give
    [false]; [true] and any other number are kept. *)
Definition or_false_value (v : Completed) : Completed :=
  match v with
  | completed_absent => completed_boolean false
  | completed_boolean b => completed_boolean b
  | completed_number n => if n =? 0 then completed_boolean false
                          else completed_number n
  end.

(** The integer a bound value stores in a TINYINT column: [true] is 1,
    [false] is 0, a number is itself; a number outside -128..127 makes the
    statement fail. *)
Definition tinyint_of (v : Completed) : option Z :=
  match v with
  | completed_absent => None
  | completed_boolean b => Some (if b then 1 else 0)
  | completed_number n => if (-128 <=? n) && (n <=? 127) then Some n else None
  end.

(** A boolean field of a body, as a value of [completed]. *)
Definition completed_of (v : option bool) : Completed :=
  match v with
  | Some b => completed_boolean b
  | None => completed_absent
  end.

(** The stored columns of a task row whose flag is [true] or [false]. *)
Definition stored_of (r : Task.row) : Stored.task :=
  Stored.mk (Task.id r) (Task.due_date r) (if Task.completed r then 1 else 0).

(** UPDATE tasks SET ..., due_date = ?, completed = ? WHERE id = ? (line 230)
    on the stored columns, with [completed || false] bound. *)
Definition stored_UPDATE (due_date : option date) (completed : Completed)
    (i : Z) (rows : list Stored.task) : option (list Stored.task) :=
  match tinyint_of (or_false_value completed) with
  | Some v =>
      Some (map (fun r => if Stored.id r =? i
                          then Stored.mk (Stored.id r) due_date v
                          else r)
                rows)
  | None => None
  end.

(** [completed = TRUE] and [completed = FALSE] on the integer. *)
Definition sql_eq_int (a b : Z) : sql_bool := Some (a =? b).
Definition TRUE : Z := 1.
Definition FALSE : Z := 0.

(** The body of GET /api/stats (lines 344-354) on the stored columns. *)
Definition stored_stats (now : timestamp) (rows : list Stored.task) : Body :=
  stats_body
    (Z.of_nat (List.length rows))
    (COUNT (fun r => sql_eq_int (Stored.completed r) TRUE) rows)
    (COUNT (fun r => sql_eq_int (Stored.completed r) FALSE) rows)
    (COUNT (fun r => sql_and (sql_eq_int (Stored.completed r) FALSE)
                             (sql_lt (Stored.due_date r) (Some (CURDATE now))))
           rows).

(** Every stored flag is 0 or 1. *)
Definition two_valued (rows : list Stored.task) : Prop :=
  forall r, In r rows -> Stored.completed r = 0 \/ Stored.completed r = 1.

(** * Properties *)

(** ** Blank titles *)

Lemma text_eqb_nil (s : text) : text_eqb s [] = true <-> s = [].
Proof.
  destruct s; simpl; split; intro H; try reflexivity; discriminate.
Qed.

Lemma trimStart_nil (s : text) :
  trimStart s = [] <-> forallb is_white_space s = true.
Proof.
  induction s as [|c r IH]; simpl.
  - split; reflexivity.
  - destruct (is_white_space c); simpl.
    + exact IH.
    + split; discriminate.
Qed.

Lemma trimStart_head (s : text) :
  trimStart s = [] \/
  exists c r, trimStart s = c :: r /\ is_white_space c = false.
Proof.
  induction s as [|c r IH]; simpl.
  - now left.
  - destruct (is_white_space c) eqn:E.
    + exact IH.
    + right. now exists c, r.
Qed.

Lemma forallb_rev {A : Type} (f : A -> bool) (l : list A) :
  forallb f (rev l) = forallb f l.
Proof.
  induction l as [|a l IH]; simpl.
  - reflexivity.
  - rewrite forallb_app, IH. simpl. rewrite andb_true_r. apply andb_comm.
Qed.

(** [trim] leaves nothing exactly of the texts made of white space only. *)
Lemma trim_nil (s : text) :
  trim s = [] <-> forallb is_white_space s = true.
Proof.
  unfold trim, trimEnd. split.
  - intro H.
    assert (H1 : trimStart (rev (trimStart s)) = []).
    { destruct (trimStart (rev (trimStart s))); [reflexivity|].
      apply (f_equal (@List.length N)) in H.
      rewrite length_rev in H. discriminate. }
    apply trimStart_nil in H1. rewrite forallb_rev in H1.
    destruct (trimStart_head s) as [E | (c & r & E & W)].
    + now apply trimStart_nil.
    + rewrite E in H1. simpl in H1. rewrite W in H1. discriminate.
  - intro H. apply trimStart_nil in H. rewrite H. reflexivity.
Qed.

Lemma title_missing_blank (title : option text) :
  title_missing title = true <-> blank_title title.
Proof.
  unfold title_missing, blank_title.
  destruct title as [s|]; simpl.
  - rewrite orb_true_iff, text_eqb_nil, trim_nil.
    split.
    + intros [H | H]; [|exact H]. destruct s; [reflexivity | discriminate].
    + intro H. now right.
  - split; reflexivity.
Qed.

(** ** Creation with a blank title *)

(** C5.  A creation request whose title is missing, empty or white space
    only is answered 400 "Title is required"; no statement that writes has
    run: the three tables and the AUTO_INCREMENT counters are as before, so
    the task table has as many rows as before and no tag or subtask row was
    inserted. *)
Theorem create_blank_title_rejected
    (b : CreateBody.t) (now : timestamp) (c : Conn) :
  blank_title (CreateBody.title b) ->
  exists c',
    create_task b now c
    = (Resolved (mkResponse 400 (error_body "Title is required")), c')
    /\ visible c' = visible c
    /\ List.length (tasks (visible c')) = List.length (tasks (visible c))
    /\ same_counters c c'.
Proof.
  intro H. apply title_missing_blank in H.
  unfold create_task, try_catch, bind, beginTransaction.
  rewrite H. simpl.
  eexists. split; [reflexivity|]. simpl.
  repeat split.
Qed.

Lemma create_blank_title_rejected_witness :
  blank_title (Some (lit "   ")) /\
  exists c',
    create_task
      (CreateBody.mk (Some (lit "   ")) None None None
                     (Some [lit "home"]) (Some [lit "step"]))
      500 sample_conn
    = (Resolved (mkResponse 400 (error_body "Title is required")), c')
    /\ visible c' = visible sample_conn
    /\ List.length (tasks (visible c')) = List.length (tasks (visible sample_conn))
    /\ same_counters sample_conn c'.
Proof.
  split.
  - reflexivity.
  - apply (create_blank_title_rejected
             (CreateBody.mk (Some (lit "   ")) None None None
                            (Some [lit "home"]) (Some [lit "step"]))
             500 sample_conn).
    reflexivity.
Defined.

(** ** Statistics *)

Lemma filter_partition_length {A : Type} (f : A -> bool) (l : list A) :
  (List.length l
   = List.length (filter f l) + List.length (filter (fun a => negb (f a)) l))%nat.
Proof.
  induction l as [|a l IH]; simpl.
  - reflexivity.
  - destruct (f a); simpl; lia.
Qed.

Lemma selected_overdue (today : date) (r : Task.row) :
  selected (sql_and (sql_eq (Task.completed r) false)
                    (sql_lt (Task.due_date r) (Some today)))
  = overdue today r.
Proof.
  unfold overdue.
  destruct (Task.completed r), (Task.due_date r) as [d|]; simpl;
    try reflexivity.
  destruct (d <? today); reflexivity.
Qed.

Lemma overdue_spec (today : date) (r : Task.row) :
  overdue today r = true <->
  Task.completed r = false /\ exists d, Task.due_date r = Some d /\ d < today.
Proof.
  unfold overdue. rewrite andb_true_iff, negb_true_iff.
  destruct (Task.due_date r) as [d|].
  - rewrite Z.ltb_lt. split.
    + intros [H1 H2]. split; [exact H1|]. now exists d.
    + intros [H1 (d' & E & H2)]. injection E as ->. now split.
  - split.
    + intros [_ H]. discriminate.
    + intros [_ (d & E & _)]. discriminate.
Qed.

(** C4.  On any store, the overdue count of GET /api/stats is the number of
    task rows that are not completed and whose due date is strictly before
    the current date.  A completed task is not among them whatever its due
    date, nor is a task with no due date or one due today or later. *)
Theorem stats_overdue_count (now : timestamp) (c : Conn) :
  (exists total completed active,
     get_stats now c
     = (Resolved
          (mkResponse 200
             (stats_body total completed active
                (Z.of_nat (List.length
                   (filter (overdue (CURDATE now)) (tasks (visible c))))))), c))
  /\ (forall r, overdue (CURDATE now) r = true <->
                Task.completed r = false
                /\ exists d, Task.due_date r = Some d /\ d < CURDATE now)
  /\ (forall r, Task.completed r = true -> overdue (CURDATE now) r = false)
  /\ (forall r, Task.due_date r = None -> overdue (CURDATE now) r = false)
  /\ (forall r d, Task.due_date r = Some d -> CURDATE now <= d ->
                  overdue (CURDATE now) r = false).
Proof.
  split; [|split; [|split; [|split]]].
  - unfold get_stats, try_catch, bind, SELECT_COUNT_total,
      SELECT_COUNT_completed, SELECT_COUNT_active, SELECT_COUNT_overdue,
      reading, json, ret.
    do 3 eexists. unfold COUNT at 3.
    rewrite (filter_ext _ _ (selected_overdue (CURDATE now))).
    reflexivity.
  - intro r. apply overdue_spec.
  - intros r H. unfold overdue. rewrite H. reflexivity.
  - intros r H. unfold overdue. rewrite H. apply andb_false_r.
  - intros r d H Hd. unfold overdue. rewrite H.
    replace (d <? CURDATE now) with false by (symmetry; apply Z.ltb_ge; lia).
    apply andb_false_r.
Qed.

(** ** Requests for a task that does not exist *)

Lemma has_task_false (t : Tables) (i : Z) :
  has_task t i = false -> filter (fun r => Task.id r =? i) (tasks t) = [].
Proof.
  unfold has_task. induction (tasks t) as [|r l IH]; simpl.
  - reflexivity.
  - destruct (Task.id r =? i); simpl; [discriminate | exact IH].
Qed.

Lemma has_task_true (t : Tables) (i : Z) :
  has_task t i = true ->
  exists r l, filter (fun r => Task.id r =? i) (tasks t) = r :: l.
Proof.
  unfold has_task. induction (tasks t) as [|r l IH]; simpl.
  - discriminate.
  - destruct (Task.id r =? i); simpl.
    + intros _. eauto.
    + exact IH.
Qed.

(** C9.  When no task row has the requested id, each of get, update, delete
    and toggle answers 404 "Task not found" (not 500), and the tables and
    the AUTO_INCREMENT counters are as before. *)
Theorem missing_task_not_found
    (id : Z) (b : UpdateBody.t) (now : timestamp) (c : Conn) :
  has_task (visible c) id = false ->
  let not_found := Resolved (mkResponse 404 (error_body "Task not found")) in
  get_task id c = (not_found, c)
  /\ (exists c', update_task id b now c = (not_found, c')
                 /\ visible c' = visible c /\ same_counters c c')
  /\ delete_task id c = (not_found, c)
  /\ toggle_task id now c = (not_found, c).
Proof.
  intros H not_found. apply has_task_false in H.
  repeat split.
  - unfold get_task, try_catch, bind, SELECT_task, reading. rewrite H.
    reflexivity.
  - unfold update_task, try_catch, bind, beginTransaction, SELECT_task, reading.
    simpl. rewrite H. simpl. eexists. split; [reflexivity|].
    simpl. repeat split.
  - unfold delete_task, try_catch, bind, DELETE_task. rewrite H. reflexivity.
  - unfold toggle_task, try_catch, bind, SELECT_task_completed, reading.
    rewrite H. reflexivity.
Qed.

Lemma missing_task_not_found_witness :
  has_task (visible sample_conn) 7 = false /\
  let b := UpdateBody.mk (Some (lit "tidy up")) None (Some (lit "high")) None
                         (Some true) (Some [lit "home"]) None in
  let not_found := Resolved (mkResponse 404 (error_body "Task not found")) in
  get_task 7 sample_conn = (not_found, sample_conn)
  /\ (exists c', update_task 7 b 500 sample_conn = (not_found, c')
                 /\ visible c' = visible sample_conn
                 /\ same_counters sample_conn c')
  /\ delete_task 7 sample_conn = (not_found, sample_conn)
  /\ toggle_task 7 500 sample_conn = (not_found, sample_conn).
Proof.
  split.
  - reflexivity.
  - apply (missing_task_not_found 7
             (UpdateBody.mk (Some (lit "tidy up")) None (Some (lit "high")) None
                            (Some true) (Some [lit "home"]) None)
             500 sample_conn).
    reflexivity.
Defined.

(** ** Toggling *)

Lemma set_task_id r s d p due b now :
  Task.id (set_task r s d p due b now) = Task.id r.
Proof.
  unfold set_task.
  destruct (_ && _); reflexivity.
Qed.


(** What [SELECT ... WHERE id = ?] finds after an UPDATE of the rows with
    that id that keeps their ids. *)
Lemma filter_id_map (f : Task.row -> Task.row) (i : Z) (l : list Task.row) :
  (forall r, Task.id (f r) = Task.id r) ->
  filter (fun r => Task.id r =? i)
         (map (fun r => if Task.id r =? i then f r else r) l)
  = map f (filter (fun r => Task.id r =? i) l).
Proof.
  intro Hid. induction l as [|r l IH]; simpl.
  - reflexivity.
  - destruct (Task.id r =? i) eqn:E; simpl.
    + rewrite Hid, E. simpl. now rewrite IH.
    + rewrite E. exact IH.
Qed.




(** ** Reasoning about handlers: inversion of the monad's operations *)

Lemma bind_resolved {A B : Type} (m : Query A) (k : A -> Query B)
    (c c' : Conn) (b : B) :
  bind m k c = (Resolved b, c') ->
  exists a c1, m c = (Resolved a, c1) /\ k a c1 = (Resolved b, c').
Proof.
  unfold bind. destruct (m c) as [[a|] c1]; intro H.
  - now exists a, c1.
  - discriminate.
Qed.

Lemma bind_rejected {A B : Type} (m : Query A) (k : A -> Query B)
    (c c' : Conn) :
  bind m k c = (Rejected, c') ->
  m c = (Rejected, c')
  \/ exists a c1, m c = (Resolved a, c1) /\ k a c1 = (Rejected, c').
Proof.
  unfold bind. destruct (m c) as [[a|] c1]; intro H.
  - right. now exists a, c1.
  - left. injection H as ->. reflexivity.
Qed.

Lemma try_catch_inv {A : Type} (body handler : Query A)
    (c c' : Conn) (o : outcome A) :
  try_catch body handler c = (o, c') ->
  (exists a, body c = (Resolved a, c') /\ o = Resolved a)
  \/ exists c1, body c = (Rejected, c1) /\ handler c1 = (o, c').
Proof.
  unfold try_catch. destruct (body c) as [[a|] c1]; intro H.
  - left. exists a. injection H as <- <-. now split.
  - right. now exists c1.
Qed.

Ltac bind_inv H :=
  let a := fresh "a" in
  let c := fresh "c" in
  let H1 := fresh "H" in
  apply bind_resolved in H; destruct H as (a & c & H1 & H).

(** ** Creating, then getting *)

Lemma filter_head_holds {A : Type} (f : A -> bool) (l r : list A) (a : A) :
  filter f l = a :: r -> f a = true.
Proof.
  intro H.
  assert (I : In a (filter f l)) by (rewrite H; now left).
  now apply filter_In in I.
Qed.

(** The task the create and update handlers send back is the one a get of
    the same id sends on the same tables. *)
Lemma fetch_task_get_task (i : Z) (c c' : Conn) (t : Enriched.t) :
  fetch_task i c = (Resolved t, c') ->
  c' = c /\ Task.id (Enriched.task t) = i
  /\ get_task i c = (Resolved (mkResponse 200 (task_body t)), c).
Proof.
  unfold fetch_task, get_task, try_catch, bind, SELECT_task, SELECT_tags,
    SELECT_subtasks, reading, json, ret, throw.
  destruct (filter (fun r => Task.id r =? i) (tasks (visible c)))
    as [|r l] eqn:E; [discriminate|].
  intro H. injection H as <- <-.
  apply filter_head_holds in E. apply Z.eqb_eq in E.
  simpl. rewrite E. repeat split.
Qed.

(** C1.  When POST /api/tasks answers 201 with a task, GET /api/tasks/:id
    with the id of that task answers 200 with the same task: the same row
    (every column, the timestamps included), the same tags and the same
    subtasks. *)
Theorem create_then_get
    (b : CreateBody.t) (now : timestamp) (c c' : Conn) (t : Enriched.t) :
  create_task b now c = (Resolved (mkResponse 201 (task_body t)), c') ->
  get_task (Task.id (Enriched.task t)) c'
  = (Resolved (mkResponse 200 (task_body t)), c').
Proof.
  intro H. unfold create_task in H.
  apply try_catch_inv in H. destruct H as [(r & H & E) | (c1 & _ & H)].
  - injection E as <-.
    bind_inv H.
    destruct (title_missing (CreateBody.title b)); [discriminate|].
    bind_inv H. bind_inv H. bind_inv H. bind_inv H. bind_inv H.
    unfold status_json, ret in H. injection H as E1 E2. subst.
    apply fetch_task_get_task in H5. destruct H5 as (-> & <- & G).
    exact G.
  - discriminate.
Qed.

Lemma create_then_get_witness :
  exists t c',
    create_task sample_create 500 sample_conn
    = (Resolved (mkResponse 201 (task_body t)), c')
    /\ get_task (Task.id (Enriched.task t)) c'
       = (Resolved (mkResponse 200 (task_body t)), c').
Proof.
  eexists. eexists. split.
  - reflexivity.
  - apply (create_then_get sample_create 500 sample_conn). reflexivity.
Defined.

(** ** What the statements of an update leave behind *)

Lemma UPDATE_task_resolved title d p due b i now c c' u :
  UPDATE_task title d p due b i now c = (Resolved u, c') ->
  exists s pr,
    title = Some s
    /\ c' = with_visible c
              (mkTables
                 (map (fun r => if Task.id r =? i
                                then set_task r s d pr due b now else r)
                      (tasks (visible c)))
                 (tags (visible c)) (subtasks (visible c))).
Proof.
  unfold UPDATE_task.
  destruct title as [s|]; [|discriminate].
  destruct (enum_priority p) as [pr|]; [|discriminate].
  destruct (_ && _); [|discriminate].
  intro H. injection H as _ <-. now exists s, pr.
Qed.

Lemma INSERT_tags_resolved values c c' u :
  INSERT_tags values c = (Resolved u, c') ->
  visible c'
  = mkTables (tasks (visible c))
             (tags (visible c) ++ number_tags (next_tag c) values)
             (subtasks (visible c))
  /\ snapshot c' = snapshot c.
Proof.
  unfold INSERT_tags. destruct (forallb _ _); [|discriminate].
  intro H. injection H as _ <-. split; reflexivity.
Qed.

Lemma INSERT_subtasks_resolved values now c c' u :
  INSERT_subtasks values now c = (Resolved u, c') ->
  exists vs,
    not_null values = Some vs
    /\ visible c'
       = mkTables (tasks (visible c)) (tags (visible c))
                  (subtasks (visible c)
                   ++ number_subtasks (next_subtask c) now vs)
    /\ snapshot c' = snapshot c.
Proof.
  unfold INSERT_subtasks. destruct (not_null values) as [vs|]; [|discriminate].
  destruct (forallb _ _); [|discriminate].
  intro H. injection H as _ <-. exists vs. repeat split.
Qed.



Lemma filter_neg_nil {A : Type} (f : A -> bool) (l : list A) :
  filter f (filter (fun a => negb (f a)) l) = [].
Proof.
  induction l as [|a l IH]; simpl.
  - reflexivity.
  - destruct (f a) eqn:E; simpl; [exact IH | now rewrite E].
Qed.

Lemma not_null_entries i (l : list SubtaskEntry) vs :
  not_null (map (fun st => (i, entry_text st, entry_completed st)) l) = Some vs ->
  Forall (fun v => fst (fst v) = i) vs
  /\ map (fun v => (Some (snd (fst v)), snd v)) vs
     = map (fun st => (entry_text st, entry_completed st)) l.
Proof.
  revert vs. induction l as [|st l IH]; intros vs; simpl.
  - intro H. injection H as <-. split; [constructor | reflexivity].
  - destruct (entry_text st) as [s|]; [|discriminate].
    destruct (not_null _) as [r|]; [|discriminate].
    intro H. injection H as <-.
    destruct (IH r eq_refl) as [F E]. split.
    + constructor; [reflexivity | exact F].
    + simpl. now rewrite E.
Qed.




(** The tables after the writes of an update that all succeeded: the rows of
    the task rewritten, its old tags and subtasks gone and the supplied ones
    appended. *)
Lemma update_writes_resolved id b now c c' u :
  update_writes id b now c = (Resolved u, c') ->
  exists s pr vs,
    UpdateBody.title b = Some s
    /\ tasks (visible c')
       = map (fun r => if Task.id r =? id
                       then set_task r s (or_null (UpdateBody.description b)) pr
                              (or_null_date (UpdateBody.due_date b))
                              (or_false (UpdateBody.completed b)) now
                       else r)
             (tasks (visible c))
    /\ tags (visible c')
       = filter (fun r => negb (Tag.task_id r =? id)) (tags (visible c))
         ++ number_tags (next_tag c)
              (map (fun tag => (id, tag)) (supplied_tags b))
    /\ not_null (map (fun st => (id, entry_text st, entry_completed st))
                     (entries b)) = Some vs
    /\ subtasks (visible c')
       = filter (fun r => negb (Subtask.task_id r =? id)) (subtasks (visible c))
         ++ number_subtasks (next_subtask c) now vs
    /\ snapshot c' = snapshot c.
Proof.
  intro H. unfold update_writes in H.
  bind_inv H. bind_inv H. bind_inv H. bind_inv H.
  apply UPDATE_task_resolved in H0. destruct H0 as (s & pr & Et & ->).
  unfold DELETE_tags in H1. injection H1 as _ <-.
  unfold DELETE_subtasks in H3. injection H3 as _ <-.
  assert (T : visible c2
              = mkTables
                  (map (fun r => if Task.id r =? id
                                 then set_task r s (or_null (UpdateBody.description b)) pr
                                        (or_null_date (UpdateBody.due_date b))
                                        (or_false (UpdateBody.completed b)) now
                                 else r)
                       (tasks (visible c)))
                  (filter (fun r => negb (Tag.task_id r =? id)) (tags (visible c))
                   ++ number_tags (next_tag c)
                        (map (fun tag => (id, tag)) (supplied_tags b)))
                  (subtasks (visible c))
              /\ snapshot c2 = snapshot c /\ next_subtask c2 = next_subtask c).
  { unfold supplied_tags.
    destruct (UpdateBody.tags b) as [[|x l]|].
    - injection H2 as _ <-. simpl. rewrite app_nil_r. repeat split.
    - pose proof H2 as H2'. apply INSERT_tags_resolved in H2. destruct H2 as [-> ->].
      unfold INSERT_tags in H2'. destruct (forallb _ _); [|discriminate].
      injection H2' as _ <-. repeat split.
    - injection H2 as _ <-. simpl. rewrite app_nil_r. repeat split. }
  destruct T as (T & S2 & N2).
  unfold entries.
  destruct (UpdateBody.subtasks b) as [[|x l]|].
  - injection H as _ <-. exists s, pr, []. simpl. rewrite T. simpl.
    rewrite app_nil_r. repeat split; assumption.
  - apply INSERT_subtasks_resolved in H. destruct H as (vs & Nn & V & S).
    simpl in V, S.
    exists s, pr, vs. rewrite V. simpl. rewrite T. simpl. rewrite N2.
    repeat split; try assumption. now rewrite S.
  - injection H as _ <-. exists s, pr, []. simpl. rewrite T. simpl.
    rewrite app_nil_r. repeat split; assumption.
Qed.

(** ** Update replaces the tags and the subtasks *)





(** ** Update is all or nothing *)

Lemma keeps_snapshot_ret {A : Type} (a : A) : keeps_snapshot (ret a).
Proof.
  intros c o c' H. injection H as _ <-. reflexivity.
Qed.

Lemma keeps_snapshot_bind {A B : Type} (m : Query A) (k : A -> Query B) :
  keeps_snapshot m -> (forall a, keeps_snapshot (k a)) ->
  keeps_snapshot (bind m k).
Proof.
  intros Hm Hk c o c' H. unfold bind in H.
  destruct (m c) as [[a|] c1] eqn:E.
  - rewrite (Hk a _ _ _ H). exact (Hm _ _ _ E).
  - injection H as _ <-. exact (Hm _ _ _ E).
Qed.

Lemma keeps_snapshot_UPDATE_task title d p due b i now :
  keeps_snapshot (UPDATE_task title d p due b i now).
Proof.
  intros c o c'. unfold UPDATE_task.
  destruct title; [|intro H; injection H as _ <-; reflexivity].
  destruct (enum_priority p); [|intro H; injection H as _ <-; reflexivity].
  destruct (_ && _); intro H; injection H as _ <-; reflexivity.
Qed.

Lemma keeps_snapshot_DELETE_tags i : keeps_snapshot (DELETE_tags i).
Proof.
  intros c o c' H. injection H as _ <-. reflexivity.
Qed.

Lemma keeps_snapshot_DELETE_subtasks i : keeps_snapshot (DELETE_subtasks i).
Proof.
  intros c o c' H. injection H as _ <-. reflexivity.
Qed.

Lemma keeps_snapshot_INSERT_tags values : keeps_snapshot (INSERT_tags values).
Proof.
  intros c o c'. unfold INSERT_tags.
  destruct (forallb _ _); intro H; injection H as _ <-; reflexivity.
Qed.

Lemma keeps_snapshot_INSERT_subtasks values now :
  keeps_snapshot (INSERT_subtasks values now).
Proof.
  intros c o c'. unfold INSERT_subtasks.
  destruct (not_null values); [|intro H; injection H as _ <-; reflexivity].
  destruct (forallb _ _); intro H; injection H as _ <-; reflexivity.
Qed.

Lemma keeps_snapshot_update_writes id b now :
  keeps_snapshot (update_writes id b now).
Proof.
  unfold update_writes.
  apply keeps_snapshot_bind; [apply keeps_snapshot_UPDATE_task | intros _].
  apply keeps_snapshot_bind; [apply keeps_snapshot_DELETE_tags | intros _].
  apply keeps_snapshot_bind.
  { destruct (UpdateBody.tags b) as [[|x l]|];
      auto using keeps_snapshot_ret, keeps_snapshot_INSERT_tags. }
  intros _.
  apply keeps_snapshot_bind; [apply keeps_snapshot_DELETE_subtasks | intros _].
  destruct (UpdateBody.subtasks b) as [[|x l]|];
    auto using keeps_snapshot_ret, keeps_snapshot_INSERT_subtasks.
Qed.

(** The rows with the id are still there after the writes of an update. *)
Lemma update_writes_keeps_task id b now c c' u r l :
  filter (fun r => Task.id r =? id) (tasks (visible c)) = r :: l ->
  update_writes id b now c = (Resolved u, c') ->
  exists r' l', filter (fun r => Task.id r =? id) (tasks (visible c')) = r' :: l'.
Proof.
  intros E H. apply update_writes_resolved in H.
  destruct H as (s & pr & vs & _ & T & _).
  rewrite T, filter_id_map by (intro; apply set_task_id).
  rewrite E. simpl. eauto.
Qed.

Lemma fetch_task_resolves (i : Z) (c : Conn) (r : Task.row) (l : list Task.row) :
  filter (fun r => Task.id r =? i) (tasks (visible c)) = r :: l ->
  exists t, fetch_task i c = (Resolved t, c).
Proof.
  intro E.
  unfold fetch_task, bind, SELECT_task, SELECT_tags, SELECT_subtasks, reading,
    ret.
  rewrite E. eexists. reflexivity.
Qed.

(** C3.  An update of a task in the store always answers.  When each of its
    writes succeeded (the row, the tags deleted and inserted, the subtasks
    deleted and inserted) the answer is 200 and the tables are those the
    writes produced, committed.  When a write failed the answer is 500 and
    the three tables are exactly as they were before the request: what the
    earlier writes of the request had done is rolled back.  Either way no
    transaction is left open. *)
Theorem update_commits_or_rolls_back
    (id : Z) (b : UpdateBody.t) (now : timestamp) (c : Conn) :
  has_task (visible c) id = true ->
  exists resp c',
    update_task id b now c = (Resolved resp, c')
    /\ snapshot c' = None
    /\ match update_writes id b now (begun c) with
       | (Resolved _, c1) =>
           (exists t, resp = mkResponse 200 (task_body t))
           /\ visible c' = visible c1
       | (Rejected, _) =>
           resp = mkResponse 500 (error_body "Failed to update task")
           /\ visible c' = visible c
       end.
Proof.
  intro H. apply has_task_true in H. destruct H as (r & l & E).
  unfold update_task, try_catch.
  unfold bind at 1. unfold beginTransaction at 1.
  unfold bind at 1. unfold SELECT_task at 1, reading at 1.
  cbn [visible]. rewrite E.
  change (mkConn (visible c) (Some (visible c)) (next_task c) (next_tag c)
                 (next_subtask c)) with (begun c).
  unfold bind at 1.
  destruct (update_writes id b now (begun c)) as [[u|] c1] eqn:W.
  - assert (E1 : filter (fun r => Task.id r =? id) (tasks (visible (begun c)))
                 = r :: l) by exact E.
    destruct (update_writes_keeps_task _ _ _ _ _ _ _ _ E1 W) as (r' & l' & E').
    destruct (fetch_task_resolves id
                (mkConn (visible c1) None (next_task c1) (next_tag c1)
                        (next_subtask c1)) r' l' E') as (t & F).
    unfold bind, commit. rewrite F. unfold json, ret.
    do 2 eexists. split; [reflexivity|]. cbn.
    repeat split. eexists. reflexivity.
  - apply keeps_snapshot_update_writes in W.
    unfold bind, rollback, status_json, ret. rewrite W. cbn.
    do 2 eexists. split; [reflexivity|]. cbn. repeat split.
Qed.

(** An update whose second tag does not fit [tag_name]: the row was updated
    and the old tags deleted before the insert failed. *)
Lemma update_commits_or_rolls_back_witness :
  has_task (visible sample_conn) 1 = true /\
  exists resp c',
    update_task 1 long_tag_update 600 sample_conn = (Resolved resp, c')
    /\ snapshot c' = None
    /\ match update_writes 1 long_tag_update 600 (begun sample_conn) with
       | (Resolved _, c1) =>
           (exists t, resp = mkResponse 200 (task_body t))
           /\ visible c' = visible c1
       | (Rejected, _) =>
           resp = mkResponse 500 (error_body "Failed to update task")
           /\ visible c' = visible sample_conn
       end.
Proof.
  split.
  - reflexivity.
  - apply (update_commits_or_rolls_back 1 long_tag_update 600 sample_conn).
    reflexivity.
Defined.

Example update_long_tag_rolled_back :
  update_writes 1 long_tag_update 600 (begun sample_conn)
  = (Rejected,
     mkConn
       (mkTables
          [Task.mk 1 (lit "write the report") None medium None false 100 600]
          []
          (subtasks (visible sample_conn)))
       (Some (visible sample_conn)) 2 3 3)
  /\ update_task 1 long_tag_update 600 sample_conn
     = (Resolved (mkResponse 500 (error_body "Failed to update task")),
        sample_conn).
Proof.
  split; vm_compute; reflexivity.
Qed.

(** ** The order of the subtasks sent to a client *)

Lemma ascending_cons2 (a b : Z) (r : list Z) :
  ascending (a :: b :: r) = (a <=? b) && ascending (b :: r).
Proof. reflexivity. Qed.

Lemma ascending_cons_insert_by (x : Subtask.row) (r : list Subtask.row) :
  forall y,
    Subtask.id y <= Subtask.id x ->
    ascending (map Subtask.id (y :: r)) = true ->
    ascending (map Subtask.id
                 (y :: insert_by (fun a b => Subtask.id a <=? Subtask.id b) x r))
    = true.
Proof.
  induction r as [|z r IH]; intros y Hy H.
  - simpl. rewrite andb_true_r. now apply Z.leb_le.
  - cbn [map] in H. rewrite ascending_cons2 in H.
    apply andb_true_iff in H. destruct H as [H1 H2].
    cbn [insert_by].
    destruct (Subtask.id x <=? Subtask.id z) eqn:E.
    + cbn [map]. rewrite !ascending_cons2, E, H2.
      replace (Subtask.id y <=? Subtask.id x) with true
        by (symmetry; now apply Z.leb_le).
      reflexivity.
    + apply Z.leb_gt in E.
      assert (Hz : Subtask.id z <= Subtask.id x) by lia.
      specialize (IH z Hz H2).
      cbn [map] in IH |- *.
      destruct (insert_by _ x r) as [|w r'].
      * cbn [map]. rewrite ascending_cons2, H1. reflexivity.
      * cbn [map] in IH |- *. rewrite ascending_cons2, H1. exact IH.
Qed.

Lemma ascending_insert_by (x : Subtask.row) (l : list Subtask.row) :
  ascending (map Subtask.id l) = true ->
  ascending (map Subtask.id
               (insert_by (fun a b => Subtask.id a <=? Subtask.id b) x l))
  = true.
Proof.
  destruct l as [|y r]; intro H.
  - reflexivity.
  - cbn [insert_by].
    destruct (Subtask.id x <=? Subtask.id y) eqn:E.
    + cbn [map] in H |- *. rewrite ascending_cons2, E. exact H.
    + apply Z.leb_gt in E. apply ascending_cons_insert_by; [lia | exact H].
Qed.

Lemma ascending_order_by (l : list Subtask.row) :
  ascending (map Subtask.id
               (order_by (fun a b => Subtask.id a <=? Subtask.id b) l))
  = true.
Proof.
  induction l as [|x l IH]; simpl.
  - reflexivity.
  - apply ascending_insert_by. exact IH.
Qed.

Lemma for_each_enrich_ascending (rows : list Task.row) (c : Conn) :
  exists l,
    for_each (fun task =>
                tags <- SELECT_tags (Task.id task) ;;
                subtasks <- SELECT_subtasks_ORDER_BY_id (Task.id task) ;;
                ret (Enriched.mk task (map Tag.tag_name tags) subtasks))
             rows c
    = (Resolved l, c)
    /\ forallb (fun t => ascending (subtask_ids t)) l = true.
Proof.
  induction rows as [|r rows (l & E & F)]; simpl.
  - exists []. split; reflexivity.
  - unfold bind at 1. unfold bind at 1.
    unfold SELECT_tags at 1, reading at 1.
    unfold bind at 1.
    unfold SELECT_subtasks_ORDER_BY_id at 1, reading at 1.
    unfold ret at 1. unfold bind at 1. rewrite E. unfold ret.
    eexists. split; [reflexivity|].
    simpl. rewrite F, andb_true_r.
    unfold subtask_ids. simpl. rewrite map_map. simpl.
    apply ascending_order_by.
Qed.

(** X20.  GET /api/tasks answers 200 and sends the subtasks of every task
    in ascending id order, whatever the order in which the store scans
    them. *)
Lemma list_tasks_subtasks_ascending (c : Conn) :
  exists l,
    list_tasks c = (Resolved (mkResponse 200 (tasks_body l)), c)
    /\ forallb (fun t => ascending (subtask_ids t)) l = true.
Proof.
  unfold list_tasks, try_catch.
  unfold bind at 1. unfold SELECT_tasks at 1, reading at 1.
  unfold bind at 1.
  destruct (for_each_enrich_ascending
              (order_by (fun a b => Task.created_at b <=? Task.created_at a)
                        (tasks (visible c))) c) as (l & E & F).
  rewrite E. exists l. split; [reflexivity | exact F].
Qed.

(** ** Titles *)



(** C7 fails for updates.  PUT /api/tasks/1 with an empty title, or with a
    title of three spaces, is answered 200 and the title is stored as
    given: the update handler has no check of the title, where the create
    handler answers 400. *)
Theorem update_stores_blank_title :
  (exists t c',
     update_task 1 empty_title_update 600 sample_conn
     = (Resolved (mkResponse 200 (task_body t)), c')
     /\ option_map Task.title (stored_task c' 1) = Some []
     /\ Task.title (Enriched.task t) = [])
  /\ (exists t c',
        update_task 1 spaces_title_update 600 sample_conn
        = (Resolved (mkResponse 200 (task_body t)), c')
        /\ option_map Task.title (stored_task c' 1) = Some (lit "   ")
        /\ trim (Task.title (Enriched.task t)) = [])
  /\ title_missing (UpdateBody.title empty_title_update) = true
  /\ title_missing (UpdateBody.title spaces_title_update) = true.
Proof.
  split; [|split; [|split]].
  - do 2 eexists. repeat split; reflexivity.
  - do 2 eexists. repeat split; reflexivity.
  - reflexivity.
  - reflexivity.
Qed.

(** ** Creation succeeds on what the schema accepts *)

Lemma has_task_fresh (t : Tables) (i : Z) :
  (forall r, In r (tasks t) -> Task.id r < i) -> has_task t i = false.
Proof.
  unfold has_task. intro H.
  induction (tasks t) as [|r l IH]; simpl.
  - reflexivity.
  - replace (Task.id r =? i) with false.
    + apply IH. intros r' I. apply H. now right.
    + symmetry. apply Z.eqb_neq. specialize (H r (or_introl eq_refl)). lia.
Qed.

Lemma has_tag_fresh (t : Tables) (i : Z) :
  (forall r, In r (tags t) -> Tag.id r < i) -> has_tag t i = false.
Proof.
  unfold has_tag. intro H.
  induction (tags t) as [|r l IH]; simpl.
  - reflexivity.
  - replace (Tag.id r =? i) with false.
    + apply IH. intros r' I. apply H. now right.
    + symmetry. apply Z.eqb_neq. specialize (H r (or_introl eq_refl)). lia.
Qed.

Lemma has_subtask_fresh (t : Tables) (i : Z) :
  (forall r, In r (subtasks t) -> Subtask.id r < i) -> has_subtask t i = false.
Proof.
  unfold has_subtask. intro H.
  induction (subtasks t) as [|r l IH]; simpl.
  - reflexivity.
  - replace (Subtask.id r =? i) with false.
    + apply IH. intros r' I. apply H. now right.
    + symmetry. apply Z.eqb_neq. specialize (H r (or_introl eq_refl)). lia.
Qed.

(** The rows of a bulk insert of tags for a task in the store pass the
    checks of the statement. *)
Lemma tags_rows_accepted (t : Tables) (i : Z) (l : list text) :
  has_task t i = true ->
  forallb (fits_varchar 100) l = true ->
  forall next,
    (forall r, In r (tags t) -> Tag.id r < next) ->
    forallb (fun r => fits_varchar 100 (Tag.tag_name r)
                      && has_task t (Tag.task_id r)
                      && negb (has_tag t (Tag.id r)))
            (number_tags next (map (fun tag => (i, tag)) l))
    = true.
Proof.
  intros Ht. induction l as [|a l IH]; intros F next Hn.
  - reflexivity.
  - simpl in F. apply andb_true_iff in F. destruct F as [Fa F].
    cbn [map number_tags forallb Tag.tag_name Tag.task_id Tag.id].
    rewrite Fa, Ht, (has_tag_fresh t next Hn). simpl.
    apply IH; [exact F|]. intros r I. specialize (Hn r I). lia.
Qed.

Lemma subtasks_not_null (i : Z) (l : list text) :
  not_null (map (fun v : Z * text => (fst v, Some (snd v), false))
                (map (fun st => (i, st)) l))
  = Some (map (fun st => (i, st, false)) l).
Proof.
  induction l as [|a l IH]; simpl.
  - reflexivity.
  - now rewrite IH.
Qed.

Lemma subtasks_rows_accepted (t : Tables) (i : Z) (now : timestamp)
    (l : list text) :
  has_task t i = true ->
  forallb (fits_varchar 255) l = true ->
  forall next,
    (forall r, In r (subtasks t) -> Subtask.id r < next) ->
    forallb (fun r => fits_varchar 255 (Subtask.text r)
                      && has_task t (Subtask.task_id r)
                      && negb (has_subtask t (Subtask.id r)))
            (number_subtasks next now (map (fun st => (i, st, false)) l))
    = true.
Proof.
  intros Ht. induction l as [|a l IH]; intros F next Hn.
  - reflexivity.
  - simpl in F. apply andb_true_iff in F. destruct F as [Fa F].
    cbn [map number_subtasks forallb Subtask.text Subtask.task_id Subtask.id].
    rewrite Fa, Ht, (has_subtask_fresh t next Hn). simpl.
    apply IH; [exact F|]. intros r I. specialize (Hn r I). lia.
Qed.

Lemma create_tags_step (c : Conn) (i : Z) (tags_ : option (list text)) :
  has_task (visible c) i = true ->
  (forall r, In r (tags (visible c)) -> Tag.id r < next_tag c) ->
  match tags_ with
  | Some l => forallb (fits_varchar 100) l
  | None => true
  end = true ->
  exists c',
    match tags_ with
    | Some ((_ :: _) as tags) => INSERT_tags (map (fun tag => (i, tag)) tags)
    | _ => ret tt
    end c = (Resolved tt, c')
    /\ tasks (visible c') = tasks (visible c)
    /\ subtasks (visible c') = subtasks (visible c)
    /\ next_subtask c' = next_subtask c.
Proof.
  intros Ht Hn F.
  destruct tags_ as [[|x l]|].
  - exists c. repeat split.
  - unfold INSERT_tags.
    rewrite (tags_rows_accepted (visible c) i (x :: l) Ht F (next_tag c) Hn).
    eexists. split; [reflexivity|]. repeat split.
  - exists c. repeat split.
Qed.

Lemma create_subtasks_step (c : Conn) (i : Z) (now : timestamp)
    (subtasks_ : option (list text)) :
  has_task (visible c) i = true ->
  (forall r, In r (subtasks (visible c)) -> Subtask.id r < next_subtask c) ->
  match subtasks_ with
  | Some l => forallb (fits_varchar 255) l
  | None => true
  end = true ->
  exists c',
    match subtasks_ with
    | Some ((_ :: _) as subtasks) =>
        INSERT_subtasks_text (map (fun st => (i, st)) subtasks) now
    | _ => ret tt
    end c = (Resolved tt, c')
    /\ tasks (visible c') = tasks (visible c).
Proof.
  intros Ht Hn F.
  destruct subtasks_ as [[|x l]|].
  - exists c. repeat split.
  - unfold INSERT_subtasks_text, INSERT_subtasks.
    rewrite subtasks_not_null.
    rewrite (subtasks_rows_accepted (visible c) i now (x :: l) Ht F
               (next_subtask c) Hn).
    eexists. split; reflexivity.
  - exists c. repeat split.
Qed.

(** X17.  On a store whose counters are beyond the ids in use, a creation
    request with a title that is not blank and values that fit the columns
    (title, description, priority of the enumeration or none, tags,
    subtasks) is answered 201 with the task. *)
Lemma create_task_succeeds (b : CreateBody.t) (now : timestamp) (c : Conn) :
  fresh_counters c ->
  acceptable b = true ->
  exists t c',
    create_task b now c = (Resolved (mkResponse 201 (task_body t)), c').
Proof.
  intros (Ft & Fg & Fs) A. unfold acceptable in A.
  repeat (apply andb_true_iff in A; destruct A as [A ?]).
  apply negb_true_iff in A.
  destruct (CreateBody.title b) as [s|] eqn:Et; [|discriminate].
  destruct (enum_priority _) as [pr|] eqn:Ep; [|discriminate].
  cbn [opt_fits] in H3.
  set (r := Task.mk (next_task c) s (or_null (CreateBody.description b)) pr
                    (or_null_date (CreateBody.due_date b)) false now now).
  set (c1 := mkConn (mkTables (tasks (visible c) ++ [r]) (tags (visible c))
                              (subtasks (visible c)))
                    (Some (visible c)) (next_task c + 1) (next_tag c)
                    (next_subtask c)).
  assert (I : INSERT_task (Some s) (or_null (CreateBody.description b))
                (or_text (CreateBody.priority b) (lit "medium"))
                (or_null_date (CreateBody.due_date b)) now (begun c)
              = (Resolved (next_task c), c1)).
  { unfold INSERT_task. rewrite Ep.
    cbn [begun beginTransaction snd visible snapshot next_task next_tag
         next_subtask].
    rewrite H3, H2, (has_task_fresh _ _ Ft). reflexivity. }
  assert (T1 : has_task (visible c1) (next_task c) = true).
  { unfold has_task. cbn. rewrite existsb_app. cbn.
    rewrite Z.eqb_refl. apply orb_true_r. }
  destruct (create_tags_step c1 (next_task c) (CreateBody.tags b) T1 Fg H0)
    as (c2 & S2 & V2 & B2 & N2).
  assert (T2 : has_task (visible c2) (next_task c) = true).
  { unfold has_task. rewrite V2. exact T1. }
  assert (Fs2 : forall r0, In r0 (subtasks (visible c2)) ->
                           Subtask.id r0 < next_subtask c2).
  { rewrite B2, N2. exact Fs. }
  destruct (create_subtasks_step c2 (next_task c) now (CreateBody.subtasks b)
              T2 Fs2 H) as (c3 & S3 & V3).
  assert (T3 : has_task (visible c3) (next_task c) = true).
  { unfold has_task. rewrite V3. exact T2. }
  apply has_task_true in T3. destruct T3 as (r3 & l3 & E3).
  destruct (fetch_task_resolves (next_task c)
              (mkConn (visible c3) None (next_task c3) (next_tag c3)
                      (next_subtask c3)) r3 l3 E3) as (t & F).
  exists t. eexists.
  unfold create_task, try_catch.
  unfold bind at 1. unfold beginTransaction at 1.
  rewrite Et, A.
  unfold bind at 1.
  change (mkConn (visible c) (Some (visible c)) (next_task c) (next_tag c)
                 (next_subtask c)) with (begun c).
  rewrite I.
  unfold bind at 1. rewrite S2.
  unfold bind at 1. rewrite S3.
  unfold bind at 1. unfold commit at 1.
  unfold bind at 1. rewrite F.
  reflexivity.
Qed.

Example sample_create_accepted :
  fresh_counters sample_conn /\ acceptable sample_create = true.
Proof.
  split; [|reflexivity].
  repeat split; intros r I; cbn in I;
    repeat (destruct I as [<- | I]; [cbn; lia|]); destruct I.
Qed.

(** * Further properties of the handlers *)

(** ** The shape of a creation *)

Lemma create_task_unfold (b : CreateBody.t) (now : timestamp) (c : Conn) :
  create_task b now c
  = if title_missing (CreateBody.title b)
    then (Resolved (mkResponse 400 (error_body "Title is required")), begun c)
    else
      let failed c1 :=
        (Resolved (mkResponse 500 (error_body "Failed to create task")),
         rolled_back c1) in
      match INSERT_task (CreateBody.title b)
              (or_null (CreateBody.description b))
              (or_text (CreateBody.priority b) (lit "medium"))
              (or_null_date (CreateBody.due_date b)) now (begun c) with
      | (Rejected, c1) => failed c1
      | (Resolved taskId, c1) =>
          match create_tags taskId b c1 with
          | (Rejected, c2) => failed c2
          | (Resolved _, c2) =>
              match create_subtasks taskId b now c2 with
              | (Rejected, c3) => failed c3
              | (Resolved _, c3) =>
                  match fetch_task taskId (committed c3) with
                  | (Rejected, c4) => failed c4
                  | (Resolved task, c4) =>
                      (Resolved (mkResponse 201 (task_body task)), c4)
                  end
              end
          end
      end.
Proof.
  unfold create_task, try_catch.
  unfold bind at 1. unfold beginTransaction at 1.
  change (mkConn (visible c) (Some (visible c)) (next_task c) (next_tag c)
                 (next_subtask c)) with (begun c).
  destruct (title_missing (CreateBody.title b)); [reflexivity|].
  unfold bind at 1.
  destruct (INSERT_task _ _ _ _ _ _) as [[taskId|] c1]; [|reflexivity].
  unfold bind at 1. fold (create_tags taskId b).
  destruct (create_tags taskId b c1) as [[u|] c2]; [|reflexivity].
  unfold bind at 1. fold (create_subtasks taskId b now).
  destruct (create_subtasks taskId b now c2) as [[u'|] c3]; [|reflexivity].
  unfold bind at 1. unfold commit at 1.
  change (mkConn (visible c3) None (next_task c3) (next_tag c3)
                 (next_subtask c3)) with (committed c3).
  unfold bind at 1.
  destruct (fetch_task taskId (committed c3)) as [[task|] c4]; reflexivity.
Qed.

(** A statement that fails changes nothing. *)
Lemma INSERT_task_rejected title d p due now c c' :
  INSERT_task title d p due now c = (Rejected, c') -> c' = c.
Proof.
  unfold INSERT_task.
  destruct title; [|intro H; now injection H].
  destruct (enum_priority p); [|intro H; now injection H].
  destruct (_ && _); [discriminate | intro H; now injection H].
Qed.

Lemma INSERT_tags_rejected values c c' :
  INSERT_tags values c = (Rejected, c') -> c' = c.
Proof.
  unfold INSERT_tags.
  destruct (forallb _ _); [discriminate | intro H; now injection H].
Qed.

Lemma INSERT_subtasks_rejected values now c c' :
  INSERT_subtasks values now c = (Rejected, c') -> c' = c.
Proof.
  unfold INSERT_subtasks.
  destruct (not_null values); [|intro H; now injection H].
  destruct (forallb _ _); [discriminate | intro H; now injection H].
Qed.

Lemma create_tags_rejected i b c c' :
  create_tags i b c = (Rejected, c') -> c' = c.
Proof.
  unfold create_tags.
  destruct (CreateBody.tags b) as [[|x l]|]; try discriminate.
  apply INSERT_tags_rejected.
Qed.

Lemma create_subtasks_rejected i b now c c' :
  create_subtasks i b now c = (Rejected, c') -> c' = c.
Proof.
  unfold create_subtasks.
  destruct (CreateBody.subtasks b) as [[|x l]|]; try discriminate.
  apply INSERT_subtasks_rejected.
Qed.

(** What the statements of a creation do when they succeed. *)
Lemma INSERT_task_effect title d p due now c c' i :
  INSERT_task title d p due now c = (Resolved i, c') ->
  exists s pr,
    title = Some s
    /\ enum_priority p = Some pr
    /\ fits_varchar 255 s = true
    /\ i = next_task c
    /\ has_task (visible c) i = false
    /\ c' = mkConn
              (mkTables (tasks (visible c) ++ [Task.mk i s d pr due false now now])
                        (tags (visible c)) (subtasks (visible c)))
              (snapshot c) (next_task c + 1) (next_tag c) (next_subtask c).
Proof.
  unfold INSERT_task.
  destruct title as [s|]; [|discriminate].
  destruct (enum_priority p) as [pr|]; [|discriminate].
  destruct (_ && _) eqn:E; [|discriminate].
  intro H. injection H as <- <-.
  apply andb_true_iff in E. destruct E as [E E3].
  apply andb_true_iff in E. destruct E as [E1 E2].
  apply negb_true_iff in E3.
  exists s, pr. repeat split; assumption.
Qed.

Lemma number_tags_length next values :
  List.length (number_tags next values) = List.length values.
Proof.
  revert next. induction values as [|[i n] l IH]; intro next; simpl.
  - reflexivity.
  - now rewrite IH.
Qed.

Lemma tags_rows_fit (t : Tables) (i : Z) (l : list text) :
  forall next,
    forallb (fun r => fits_varchar 100 (Tag.tag_name r)
                      && has_task t (Tag.task_id r)
                      && negb (has_tag t (Tag.id r)))
            (number_tags next (map (fun tag => (i, tag)) l)) = true ->
    forallb (fits_varchar 100) l = true.
Proof.
  induction l as [|a l IH]; intros next F; simpl in *.
  - reflexivity.
  - apply andb_true_iff in F. destruct F as [F1 F2].
    apply andb_true_iff in F1. destruct F1 as [F1 _].
    apply andb_true_iff in F1. destruct F1 as [F1 _].
    rewrite F1. exact (IH _ F2).
Qed.

Lemma create_tags_effect i b c c' u :
  create_tags i b c = (Resolved u, c') ->
  c' = mkConn
         (mkTables (tasks (visible c))
            (tags (visible c)
             ++ number_tags (next_tag c)
                  (map (fun tag => (i, tag)) (submitted_tags b)))
            (subtasks (visible c)))
         (snapshot c) (next_task c)
         (next_tag c + Z.of_nat (List.length (submitted_tags b)))
         (next_subtask c)
  /\ forallb (fits_varchar 100) (submitted_tags b) = true.
Proof.
  unfold create_tags, submitted_tags.
  assert (Same : c = mkConn
                       (mkTables (tasks (visible c)) (tags (visible c) ++ [])
                                 (subtasks (visible c)))
                       (snapshot c) (next_task c) (next_tag c + 0)
                       (next_subtask c)).
  { rewrite app_nil_r, Z.add_0_r. now destruct c as [[? ? ?] ? ? ? ?]. }
  destruct (CreateBody.tags b) as [[|x l]|].
  - intro H. injection H as _ <-. split; [exact Same | reflexivity].
  - unfold INSERT_tags.
    destruct (forallb _ (number_tags _ _)) eqn:F; [|discriminate].
    intro H. injection H as _ <-. split.
    + rewrite number_tags_length, length_map. reflexivity.
    + exact (tags_rows_fit _ _ _ _ F).
  - intro H. injection H as _ <-. split; [exact Same | reflexivity].
Qed.

Lemma number_subtasks_length next now values :
  List.length (number_subtasks next now values) = List.length values.
Proof.
  revert next. induction values as [|[[i s] b] l IH]; intro next; simpl.
  - reflexivity.
  - now rewrite IH.
Qed.

Lemma subtasks_rows_fit (t : Tables) (i : Z) (now : timestamp) (l : list text) :
  forall next,
    forallb (fun r => fits_varchar 255 (Subtask.text r)
                      && has_task t (Subtask.task_id r)
                      && negb (has_subtask t (Subtask.id r)))
            (number_subtasks next now (map (fun st => (i, st, false)) l))
    = true ->
    forallb (fits_varchar 255) l = true.
Proof.
  induction l as [|a l IH]; intros next F; simpl in *.
  - reflexivity.
  - apply andb_true_iff in F. destruct F as [F1 F2].
    apply andb_true_iff in F1. destruct F1 as [F1 _].
    apply andb_true_iff in F1. destruct F1 as [F1 _].
    rewrite F1. exact (IH _ F2).
Qed.

Lemma create_subtasks_effect i b now c c' u :
  create_subtasks i b now c = (Resolved u, c') ->
  c' = mkConn
         (mkTables (tasks (visible c)) (tags (visible c))
            (subtasks (visible c)
             ++ number_subtasks (next_subtask c) now
                  (map (fun st => (i, st, false)) (submitted_subtasks b))))
         (snapshot c) (next_task c) (next_tag c)
         (next_subtask c + Z.of_nat (List.length (submitted_subtasks b)))
  /\ forallb (fits_varchar 255) (submitted_subtasks b) = true.
Proof.
  unfold create_subtasks, submitted_subtasks.
  assert (Same : c = mkConn
                       (mkTables (tasks (visible c)) (tags (visible c))
                                 (subtasks (visible c) ++ []))
                       (snapshot c) (next_task c) (next_tag c)
                       (next_subtask c + 0)).
  { rewrite app_nil_r, Z.add_0_r. now destruct c as [[? ? ?] ? ? ? ?]. }
  destruct (CreateBody.subtasks b) as [[|x l]|].
  - intro H. injection H as _ <-. split; [exact Same | reflexivity].
  - unfold INSERT_subtasks_text, INSERT_subtasks.
    rewrite subtasks_not_null.
    destruct (forallb _ (number_subtasks _ _ _)) eqn:F; [|discriminate].
    intro H. injection H as _ <-. split.
    + rewrite number_subtasks_length, length_map. reflexivity.
    + exact (subtasks_rows_fit _ _ _ _ _ F).
  - intro H. injection H as _ <-. split; [exact Same | reflexivity].
Qed.

Lemma filter_task_created (l : list Task.row) (r : Task.row) (t : Tables) :
  tasks t = l ->
  has_task t (Task.id r) = false ->
  filter (fun r0 => Task.id r0 =? Task.id r) (l ++ [r]) = [r].
Proof.
  intros <- H. rewrite filter_app, (has_task_false _ _ H).
  simpl. now rewrite Z.eqb_refl.
Qed.

(** Once the three inserts of a creation have succeeded, the handler commits
    and finds the task. *)
Lemma create_task_steps (b : CreateBody.t) (now : timestamp) (c c1 c2 c3 : Conn)
    (taskId : Z) (u u' : unit) :
  INSERT_task (CreateBody.title b) (or_null (CreateBody.description b))
    (or_text (CreateBody.priority b) (lit "medium"))
    (or_null_date (CreateBody.due_date b)) now (begun c)
  = (Resolved taskId, c1) ->
  create_tags taskId b c1 = (Resolved u, c2) ->
  create_subtasks taskId b now c2 = (Resolved u', c3) ->
  exists s pr,
    CreateBody.title b = Some s
    /\ enum_priority (or_text (CreateBody.priority b) (lit "medium")) = Some pr
    /\ taskId = next_task c
    /\ has_task (visible c) (next_task c) = false
    /\ committed c3 = created b now c s pr
    /\ filter (fun r => Task.id r =? taskId) (tasks (visible (committed c3)))
       = [created_row b now c s pr].
Proof.
  intros I T S.
  apply INSERT_task_effect in I.
  destruct I as (s & pr & Et & Ep & _ & Ei & Fresh & ->).
  apply create_tags_effect in T. destruct T as [-> _].
  apply create_subtasks_effect in S. destruct S as [-> _].
  cbn [begun beginTransaction snd visible snapshot next_task next_tag
       next_subtask tasks tags subtasks] in *.
  subst taskId.
  exists s, pr. repeat split; try assumption.
  cbn. apply (filter_task_created _ (created_row b now c s pr) (visible c));
    [reflexivity | exact Fresh].
Qed.







(** X2.  A creation always answers, with 201, 400 or 500.  With 201 the
    transaction is committed.  With 400 the tables are as before and the
    transaction the handler began is still open.  With 500 a statement
    failed: the tables are exactly as before the request (a task row
    inserted before a failing tag or subtask insert is rolled back) and no
    transaction is open. *)
Theorem create_commits_or_rolls_back
    (b : CreateBody.t) (now : timestamp) (c : Conn) :
  exists resp c',
    create_task b now c = (Resolved resp, c')
    /\ ((exists t, resp = mkResponse 201 (task_body t))
        /\ snapshot c' = None
        \/ resp = mkResponse 400 (error_body "Title is required")
           /\ visible c' = visible c
           /\ snapshot c' = Some (visible c)
        \/ resp = mkResponse 500 (error_body "Failed to create task")
           /\ visible c' = visible c
           /\ snapshot c' = None).
Proof.
  rewrite create_task_unfold.
  destruct (title_missing (CreateBody.title b)).
  { do 2 eexists. split; [reflexivity|]. right. left. repeat split. }
  cbv zeta.
  destruct (INSERT_task _ _ _ _ _ _) as [[taskId|] c1] eqn:I.
  2:{ apply INSERT_task_rejected in I. subst c1.
      do 2 eexists. split; [reflexivity|]. right. right. repeat split. }
  destruct (create_tags taskId b c1) as [[u|] c2] eqn:T.
  2:{ apply create_tags_rejected in T. subst c2.
      apply INSERT_task_effect in I.
      destruct I as (s & pr & _ & _ & _ & _ & _ & ->).
      do 2 eexists. split; [reflexivity|]. right. right. repeat split. }
  destruct (create_subtasks taskId b now c2) as [[u'|] c3] eqn:S.
  2:{ apply create_subtasks_rejected in S. subst c3.
      apply INSERT_task_effect in I.
      destruct I as (s & pr & _ & _ & _ & _ & _ & ->).
      apply create_tags_effect in T. destruct T as [-> _].
      do 2 eexists. split; [reflexivity|]. right. right. repeat split. }
  destruct (create_task_steps b now c c1 c2 c3 taskId u u' I T S)
    as (s & pr & _ & _ & _ & _ & C & Fl).
  destruct (fetch_task_resolves taskId (committed c3) _ _ Fl) as (t & F).
  rewrite F. do 2 eexists. split; [reflexivity|]. left.
  split; [now exists t | reflexivity].
Qed.

Example create_long_subtask_rolled_back :
  create_task long_subtask_create 600 sample_conn
  = (Resolved (mkResponse 500 (error_body "Failed to create task")),
     mkConn (visible sample_conn) None 3 4 3).
Proof.
  vm_compute. reflexivity.
Qed.

(** ** Deleting *)

Lemma filter_other {A : Type} (key : A -> Z) (i j : Z) (l : list A) :
  j <> i ->
  filter (fun a => key a =? j) (filter (fun a => negb (key a =? i)) l)
  = filter (fun a => key a =? j) l.
Proof.
  intro N. induction l as [|a l IH]; simpl.
  - reflexivity.
  - destruct (key a =? i) eqn:Ei; simpl.
    + apply Z.eqb_eq in Ei.
      replace (key a =? j) with false by (symmetry; apply Z.eqb_neq; lia).
      exact IH.
    + destruct (key a =? j); now rewrite IH.
Qed.

Lemma has_task_filter_self (l : list Task.row) (i : Z) :
  existsb (fun r => Task.id r =? i)
          (filter (fun r => negb (Task.id r =? i)) l) = false.
Proof.
  induction l as [|r l IH]; simpl.
  - reflexivity.
  - destruct (Task.id r =? i) eqn:E; simpl; [exact IH | now rewrite E].
Qed.

(** X3.  Deleting a task that is in the store answers 200 with the id.
    Afterwards the task is gone together with every tag and subtask that
    referenced it, a get of the id and a second delete both answer 404, and
    every other task still has its row, its tags and its subtasks. *)
Theorem delete_task_removes (id : Z) (c : Conn) :
  has_task (visible c) id = true ->
  exists c',
    delete_task id c
    = (Resolved (mkResponse 200 (deleted_body "Task deleted successfully" id)),
       c')
    /\ has_task (visible c') id = false
    /\ stored_tags c' id = []
    /\ stored_subtasks c' id = []
    /\ get_task id c'
       = (Resolved (mkResponse 404 (error_body "Task not found")), c')
    /\ delete_task id c'
       = (Resolved (mkResponse 404 (error_body "Task not found")), c')
    /\ (forall j, j <> id ->
          stored_task c' j = stored_task c j
          /\ stored_tags c' j = stored_tags c j
          /\ stored_subtasks c' j = stored_subtasks c j)
    /\ snapshot c' = snapshot c
    /\ same_counters c c'.
Proof.
  intro H. apply has_task_true in H. destruct H as (r & l & E).
  set (c' := with_visible c
               (mkTables
                  (filter (fun r => negb (Task.id r =? id)) (tasks (visible c)))
                  (filter (fun r => negb (Tag.task_id r =? id)) (tags (visible c)))
                  (filter (fun r => negb (Subtask.task_id r =? id))
                          (subtasks (visible c))))).
  assert (D : delete_task id c
              = (Resolved (mkResponse 200
                   (deleted_body "Task deleted successfully" id)), c')).
  { unfold delete_task, try_catch, bind, DELETE_task. rewrite E. reflexivity. }
  assert (G : has_task (visible c') id = false).
  { unfold has_task. cbn. apply has_task_filter_self. }
  exists c'. split; [exact D|]. split; [exact G|].
  split; [|split; [|split; [|split; [|split; [|split]]]]].
  - unfold stored_tags. cbn.
    now rewrite (filter_neg_nil (fun r => Tag.task_id r =? id)).
  - unfold stored_subtasks. cbn.
    now rewrite (filter_neg_nil (fun r => Subtask.task_id r =? id)).
  - unfold get_task, try_catch, bind, SELECT_task, reading.
    now rewrite (has_task_false _ _ G).
  - unfold delete_task, try_catch, bind, DELETE_task.
    now rewrite (has_task_false _ _ G).
  - intros j N. unfold stored_task, stored_tags, stored_subtasks. cbn.
    rewrite (filter_other Task.id id j _ N),
            (filter_other Tag.task_id id j _ N),
            (filter_other Subtask.task_id id j _ N).
    repeat split.
  - reflexivity.
  - repeat split.
Qed.

Lemma delete_task_removes_witness :
  has_task (visible created_conn) 1 = true /\
  exists c',
    delete_task 1 created_conn
    = (Resolved (mkResponse 200 (deleted_body "Task deleted successfully" 1)),
       c')
    /\ has_task (visible c') 1 = false
    /\ stored_tags c' 1 = []
    /\ stored_subtasks c' 1 = []
    /\ get_task 1 c'
       = (Resolved (mkResponse 404 (error_body "Task not found")), c')
    /\ delete_task 1 c'
       = (Resolved (mkResponse 404 (error_body "Task not found")), c')
    /\ (forall j, j <> 1 ->
          stored_task c' j = stored_task created_conn j
          /\ stored_tags c' j = stored_tags created_conn j
          /\ stored_subtasks c' j = stored_subtasks created_conn j)
    /\ snapshot c' = snapshot created_conn
    /\ same_counters created_conn c'.
Proof.
  split.
  - reflexivity.
  - apply (delete_task_removes 1 created_conn). reflexivity.
Defined.

(** ** Toggling touches nothing else *)

Lemma set_task_toggled (r : Task.row) (now : timestamp) :
  set_task r (Task.title r) (Task.description r) (Task.priority r)
           (Task.due_date r) (negb (Task.completed r)) now
  = Task.mk (Task.id r) (Task.title r) (Task.description r) (Task.priority r)
            (Task.due_date r) (negb (Task.completed r)) (Task.created_at r) now.
Proof.
  unfold set_task.
  replace (Bool.eqb (Task.completed r) (negb (Task.completed r))) with false
    by (now destruct (Task.completed r)).
  now rewrite andb_false_r.
Qed.

Lemma filter_map_other {A : Type} (key : A -> Z) (f : A -> A) (i j : Z)
    (l : list A) :
  (forall a, key (f a) = key a) ->
  j <> i ->
  filter (fun a => key a =? j) (map (fun a => if key a =? i then f a else a) l)
  = filter (fun a => key a =? j) l.
Proof.
  intros K N. induction l as [|a l IH]; simpl.
  - reflexivity.
  - destruct (key a =? i) eqn:Ei.
    + rewrite K. apply Z.eqb_eq in Ei.
      replace (key a =? j) with false by (symmetry; apply Z.eqb_neq; lia).
      exact IH.
    + destruct (key a =? j); now rewrite IH.
Qed.

(** X4.  Toggling a task in the store changes, in the rows of that id, the
    [completed] flag to its negation and [updated_at] to the time of the
    request, and nothing else: title, description, priority, due date and
    [created_at] stay, the rows of every other task stay, and so do all tags
    and all subtasks. *)
Theorem toggle_task_changes_only_flag
    (id : Z) (now : timestamp) (c : Conn) (r : Task.row) :
  stored_task c id = Some r ->
  exists c',
    toggle_task id now c
    = (Resolved (mkResponse 200 (toggle_body id (negb (Task.completed r)))), c')
    /\ stored_task c' id
       = Some (Task.mk (Task.id r) (Task.title r) (Task.description r)
                       (Task.priority r) (Task.due_date r)
                       (negb (Task.completed r)) (Task.created_at r) now)
    /\ (forall j, j <> id -> stored_task c' j = stored_task c j)
    /\ tags (visible c') = tags (visible c)
    /\ subtasks (visible c') = subtasks (visible c)
    /\ snapshot c' = snapshot c
    /\ same_counters c c'.
Proof.
  unfold stored_task. intro H.
  unfold toggle_task, try_catch, bind, SELECT_task_completed, reading.
  destruct (filter (fun r0 => Task.id r0 =? id) (tasks (visible c)))
    as [|r0 l] eqn:E; [discriminate|].
  injection H as ->. simpl.
  eexists. split; [reflexivity|]. cbn.
  split; [|split; [|repeat split]].
  - rewrite (filter_id_map
               (fun r0 => set_task r0 (Task.title r0) (Task.description r0)
                            (Task.priority r0) (Task.due_date r0)
                            (negb (Task.completed r)) now))
      by (intro; apply set_task_id).
    rewrite E. cbn. now rewrite set_task_toggled.
  - intros j N.
    rewrite (filter_map_other Task.id
               (fun r0 => set_task r0 (Task.title r0) (Task.description r0)
                            (Task.priority r0) (Task.due_date r0)
                            (negb (Task.completed r)) now) id j _
               (fun a => set_task_id a _ _ _ _ _ _) N).
    reflexivity.
Qed.

Lemma toggle_task_changes_only_flag_witness :
  stored_task sample_conn 1
  = Some (Task.mk 1 (lit "write report") None medium (Some 19000) false 100 100)
  /\ exists c',
       toggle_task 1 700 sample_conn
       = (Resolved (mkResponse 200 (toggle_body 1 (negb false))), c')
       /\ stored_task c' 1
          = Some (Task.mk 1 (lit "write report") None medium (Some 19000)
                          (negb false) 100 700)
       /\ (forall j, j <> 1 -> stored_task c' j = stored_task sample_conn j)
       /\ tags (visible c') = tags (visible sample_conn)
       /\ subtasks (visible c') = subtasks (visible sample_conn)
       /\ snapshot c' = snapshot sample_conn
       /\ same_counters sample_conn c'.
Proof.
  split.
  - reflexivity.
  - apply (toggle_task_changes_only_flag 1 700 sample_conn
             (Task.mk 1 (lit "write report") None medium (Some 19000)
                      false 100 100)).
    reflexivity.
Defined.

(** ** Toggling a subtask *)

Lemma has_subtask_false (t : Tables) (i : Z) :
  has_subtask t i = false ->
  filter (fun r => Subtask.id r =? i) (subtasks t) = [].
Proof.
  unfold has_subtask. induction (subtasks t) as [|r l IH]; simpl.
  - reflexivity.
  - destruct (Subtask.id r =? i); simpl; [discriminate | exact IH].
Qed.

(** X5.  Toggling a subtask id that no row has answers 404 "Subtask not
    found" and leaves the connection as it is. *)
Theorem toggle_subtask_not_found (id : Z) (c : Conn) :
  has_subtask (visible c) id = false ->
  toggle_subtask id c
  = (Resolved (mkResponse 404 (error_body "Subtask not found")), c).
Proof.
  intro H. unfold toggle_subtask, try_catch, bind, SELECT_subtask_completed,
    reading.
  now rewrite (has_subtask_false _ _ H).
Qed.

Lemma toggle_subtask_not_found_witness :
  has_subtask (visible sample_conn) 9 = false /\
  toggle_subtask 9 sample_conn
  = (Resolved (mkResponse 404 (error_body "Subtask not found")), sample_conn).
Proof.
  split.
  - reflexivity.
  - apply (toggle_subtask_not_found 9 sample_conn). reflexivity.
Defined.

Lemma NoDup_filter_single {A : Type} (key : A -> Z) (i : Z) (l : list A)
    (r : A) (rest : list A) :
  NoDup (map key l) ->
  filter (fun a => key a =? i) l = r :: rest ->
  forall a, In a l -> key a = i -> a = r.
Proof.
  induction l as [|x l IH]; simpl; intros N F a I K.
  - destruct I.
  - apply NoDup_cons_iff in N. destruct N as [Nx Nl].
    destruct (key x =? i) eqn:E.
    + injection F as -> _.
      destruct I as [-> | I]; [reflexivity|].
      exfalso. apply Nx. apply Z.eqb_eq in E.
      rewrite E, <- K. now apply in_map.
    + destruct I as [-> | I].
      * apply Z.eqb_neq in E. contradiction.
      * exact (IH Nl F a I K).
Qed.




Lemma filter_map_keep {A : Type} (p : A -> bool) (g : A -> A) (l : list A) :
  (forall a, p (g a) = p a) ->
  filter p (map g l) = map g (filter p l).
Proof.
  intro K. induction l as [|a l IH]; simpl.
  - reflexivity.
  - rewrite K. destruct (p a); simpl; now rewrite IH.
Qed.

(** X7.  After a subtask toggle answered 200 with flag [b], a get of any
    task answers what it answered before, except that the subtasks with the
    toggled id now carry [b]. *)
Theorem toggle_subtask_seen_by_get
    (sid i : Z) (b : bool) (c c' : Conn) (t : Enriched.t) :
  toggle_subtask sid c
  = (Resolved (mkResponse 200 (toggle_body sid b)), c') ->
  get_task i c = (Resolved (mkResponse 200 (task_body t)), c) ->
  get_task i c'
  = (Resolved
       (mkResponse 200
          (task_body
             (Enriched.mk (Enriched.task t) (Enriched.tags t)
                (map (fun s => if SubtaskItem.id s =? sid
                               then with_completed b s else s)
                     (Enriched.subtasks t))))),
     c').
Proof.
  unfold toggle_subtask, try_catch, bind, SELECT_subtask_completed, reading.
  destruct (filter (fun r => Subtask.id r =? sid) (subtasks (visible c)))
    as [|r0 rest]; [discriminate|].
  cbn [map]. unfold UPDATE_subtask_completed, json, ret.
  intro H. injection H as <- <-.
  unfold get_task, try_catch, bind, SELECT_task, SELECT_tags, SELECT_subtasks,
    reading, json, ret, with_visible.
  cbn [visible tasks tags subtasks].
  destruct (filter (fun r => Task.id r =? i) (tasks (visible c)))
    as [|r l]; [discriminate|].
  intro G. injection G as <-.
  cbn [Enriched.task Enriched.tags Enriched.subtasks visible tasks tags
       subtasks].
  do 4 f_equal.
  rewrite (filter_map_keep (fun r1 => Subtask.task_id r1 =? Task.id r)).
  - rewrite !map_map. f_equal. apply map_ext. intro a.
    unfold subtask_item, with_completed. cbn.
    destruct (Subtask.id a =? sid); reflexivity.
  - intro a. destruct (Subtask.id a =? sid); reflexivity.
Qed.

Lemma toggle_subtask_seen_by_get_witness :
  exists c',
    toggle_subtask 1 sample_conn
    = (Resolved (mkResponse 200 (toggle_body 1 true)), c')
    /\ get_task 1 c'
       = (Resolved
            (mkResponse 200
               (task_body
                  (Enriched.mk
                     (Task.mk 1 (lit "write report") None medium (Some 19000)
                              false 100 100)
                     [lit "work"; lit "urgent"]
                     (map (fun s => if SubtaskItem.id s =? 1
                                    then with_completed true s else s)
                          [SubtaskItem.mk 1 (lit "outline") false;
                           SubtaskItem.mk 2 (lit "draft") true])))),
          c').
Proof.
  eexists. split.
  - reflexivity.
  - apply (toggle_subtask_seen_by_get 1 1 true sample_conn _
             (Enriched.mk
                (Task.mk 1 (lit "write report") None medium (Some 19000)
                         false 100 100)
                [lit "work"; lit "urgent"]
                [SubtaskItem.mk 1 (lit "outline") false;
                 SubtaskItem.mk 2 (lit "draft") true]));
      reflexivity.
Defined.

(** ** Listing *)

Lemma insert_by_Permutation {A : Type} (le : A -> A -> bool) (x : A)
    (l : list A) :
  Permutation (insert_by le x l) (x :: l).
Proof.
  induction l as [|y r IH]; simpl.
  - apply Permutation_refl.
  - destruct (le x y).
    + apply Permutation_refl.
    + apply perm_trans with (y :: x :: r).
      * now apply perm_skip.
      * apply perm_swap.
Qed.

Lemma order_by_Permutation {A : Type} (le : A -> A -> bool) (l : list A) :
  Permutation (order_by le l) l.
Proof.
  induction l as [|x l IH]; simpl.
  - apply perm_nil.
  - apply perm_trans with (x :: order_by le l).
    + apply insert_by_Permutation.
    + now apply perm_skip.
Qed.

Lemma insert_by_Sorted {A : Type} (le : A -> A -> bool) (x : A) (l : list A) :
  (forall a b, le a b = false -> le b a = true) ->
  Sorted (fun a b => le a b = true) l ->
  Sorted (fun a b => le a b = true) (insert_by le x l).
Proof.
  intros T S. induction S as [|y r S IH Hd]; simpl.
  - constructor; constructor.
  - destruct (le x y) eqn:E.
    + constructor; [now constructor | now constructor].
    + constructor; [exact IH|].
      destruct Hd as [|z r' Hz]; simpl.
      * constructor. now apply T.
      * destruct (le x z); constructor; [now apply T | exact Hz].
Qed.

Lemma order_by_Sorted {A : Type} (le : A -> A -> bool) (l : list A) :
  (forall a b, le a b = false -> le b a = true) ->
  Sorted (fun a b => le a b = true) (order_by le l).
Proof.
  intro T. induction l as [|x l IH]; simpl.
  - constructor.
  - now apply insert_by_Sorted.
Qed.

Lemma for_each_listed (rows : list Task.row) (c : Conn) :
  for_each (fun task =>
              tags <- SELECT_tags (Task.id task) ;;
              subtasks <- SELECT_subtasks_ORDER_BY_id (Task.id task) ;;
              ret (Enriched.mk task (map Tag.tag_name tags) subtasks))
           rows c
  = (Resolved (map (listed c) rows), c).
Proof.
  induction rows as [|r rows IH]; simpl.
  - reflexivity.
  - unfold bind at 1. unfold bind at 1.
    unfold SELECT_tags at 1, reading at 1.
    unfold bind at 1.
    unfold SELECT_subtasks_ORDER_BY_id at 1, reading at 1.
    unfold ret at 1. unfold bind at 1. rewrite IH. reflexivity.
Qed.

Lemma list_tasks_listed (c : Conn) :
  list_tasks c
  = (Resolved
       (mkResponse 200
          (tasks_body
             (map (listed c)
                  (order_by (fun a b => Task.created_at b <=? Task.created_at a)
                            (tasks (visible c)))))),
     c).
Proof.
  unfold list_tasks, try_catch.
  unfold bind at 1. unfold SELECT_tasks at 1, reading at 1.
  unfold bind at 1. rewrite for_each_listed. reflexivity.
Qed.

(** X8.  GET /api/tasks answers 200 with one entry for every task row of
    the store, each exactly once, the newer before the older by
    [created_at], and leaves the connection as it is; on an empty table the
    list is empty. *)
Theorem list_tasks_all_newest_first (c : Conn) :
  exists l,
    list_tasks c = (Resolved (mkResponse 200 (tasks_body l)), c)
    /\ Permutation (map Enriched.task l) (tasks (visible c))
    /\ Sorted newer_or_same (map Enriched.task l)
    /\ List.length l = List.length (tasks (visible c)).
Proof.
  eexists. split; [apply list_tasks_listed|].
  rewrite map_map. cbn [listed Enriched.task]. rewrite map_id.
  split; [apply order_by_Permutation|]. split.
  - assert (S : Sorted (fun a b => (Task.created_at b <=? Task.created_at a) = true)
                  (order_by (fun a b => Task.created_at b <=? Task.created_at a)
                            (tasks (visible c)))).
    { apply order_by_Sorted. intros a b H.
      apply Z.leb_gt in H. apply Z.leb_le. lia. }
    induction S as [|y r S IH Hd]; constructor.
    + exact IH.
    + destruct Hd as [|z r' Hz]; constructor.
      unfold newer_or_same. now apply Z.leb_le.
  - rewrite length_map. apply Permutation_length, order_by_Permutation.
Qed.

(** X9.  On a store where task ids are unique, every entry of GET
    /api/tasks is the task GET /api/tasks/:id answers for its id, with the
    same row and the same tags; its subtasks are those of the get, rearranged
    in ascending id order. *)
Theorem list_tasks_agrees_with_get
    (c : Conn) (l : list Enriched.t) (t : Enriched.t) :
  NoDup (map Task.id (tasks (visible c))) ->
  list_tasks c = (Resolved (mkResponse 200 (tasks_body l)), c) ->
  In t l ->
  exists t',
    get_task (Task.id (Enriched.task t)) c
    = (Resolved (mkResponse 200 (task_body t')), c)
    /\ Enriched.task t' = Enriched.task t
    /\ Enriched.tags t' = Enriched.tags t
    /\ Permutation (Enriched.subtasks t) (Enriched.subtasks t')
    /\ ascending (subtask_ids t) = true.
Proof.
  intros N H I. rewrite list_tasks_listed in H. injection H as <-.
  apply in_map_iff in I. destruct I as (r & <- & I).
  apply (Permutation_in _ (order_by_Permutation _ _)) in I.
  cbn [listed Enriched.task].
  unfold get_task, try_catch, bind, SELECT_task, SELECT_tags, SELECT_subtasks,
    reading, json, ret.
  destruct (filter (fun r0 => Task.id r0 =? Task.id r) (tasks (visible c)))
    as [|r0 rest] eqn:E.
  - exfalso.
    assert (J : In r (filter (fun r0 => Task.id r0 =? Task.id r)
                             (tasks (visible c)))).
    { apply filter_In. split; [exact I | apply Z.eqb_refl]. }
    rewrite E in J. destruct J.
  - rewrite <- (NoDup_filter_single Task.id _ _ _ _ N E r I eq_refl).
    eexists. split; [reflexivity|]. cbn.
    repeat split.
    + apply Permutation_map, order_by_Permutation.
    + unfold subtask_ids. cbn. rewrite map_map. cbn.
      apply ascending_order_by.
Qed.

Lemma list_tasks_agrees_with_get_witness :
  NoDup (map Task.id (tasks (visible sample_conn)))
  /\ exists l t,
       list_tasks sample_conn
       = (Resolved (mkResponse 200 (tasks_body l)), sample_conn)
       /\ In t l
       /\ exists t',
            get_task (Task.id (Enriched.task t)) sample_conn
            = (Resolved (mkResponse 200 (task_body t')), sample_conn)
            /\ Enriched.task t' = Enriched.task t
            /\ Enriched.tags t' = Enriched.tags t
            /\ Permutation (Enriched.subtasks t) (Enriched.subtasks t')
            /\ ascending (subtask_ids t) = true.
Proof.
  assert (N : NoDup (map Task.id (tasks (visible sample_conn)))).
  { cbn. repeat constructor. intros []. }
  split; [exact N|].
  eexists. eexists. split; [reflexivity|].
  assert (I : In (listed sample_conn
                    (Task.mk 1 (lit "write report") None medium (Some 19000)
                             false 100 100))
                 (map (listed sample_conn)
                      (order_by (fun a b => Task.created_at b <=? Task.created_at a)
                                (tasks (visible sample_conn))))).
  { left. reflexivity. }
  split; [exact I|].
  apply (list_tasks_agrees_with_get sample_conn _ _ N
           (list_tasks_listed sample_conn) I).
Defined.

(** ** More on the statistics *)

Lemma filter_length_le {A : Type} (f g : A -> bool) (l : list A) :
  (forall a, f a = true -> g a = true) ->
  (List.length (filter f l) <= List.length (filter g l))%nat.
Proof.
  intro H. induction l as [|a l IH]; simpl.
  - lia.
  - destruct (f a) eqn:F.
    + rewrite (H a F). simpl. lia.
    + destruct (g a); simpl; lia.
Qed.

Lemma filter_all {A : Type} (l : list A) : filter (fun _ => true) l = l.
Proof.
  induction l as [|a l IH]; simpl; [reflexivity | now rewrite IH].
Qed.

(** X10.  On any store the counts of GET /api/stats are ordered: overdue is
    at most active, and active and completed are each at most total; none is
    negative. *)
Theorem stats_counts_ordered (now : timestamp) (c : Conn) :
  exists total completed active overdue_,
    get_stats now c
    = (Resolved (mkResponse 200 (stats_body total completed active overdue_)), c)
    /\ 0 <= overdue_ <= active
    /\ active <= total
    /\ 0 <= completed <= total.
Proof.
  unfold get_stats, try_catch, bind, SELECT_COUNT_total, SELECT_COUNT_completed,
    SELECT_COUNT_active, SELECT_COUNT_overdue, reading, json, ret.
  do 4 eexists. split; [reflexivity|]. unfold COUNT.
  pose proof (filter_length_le
                (fun r => selected
                   (sql_and (sql_eq (Task.completed r) false)
                            (sql_lt (Task.due_date r) (Some (CURDATE now)))))
                (fun r => selected (sql_eq (Task.completed r) false))
                (tasks (visible c))) as H1.
  pose proof (filter_length_le
                (fun r => selected (sql_eq (Task.completed r) false))
                (fun _ => true) (tasks (visible c)) (fun _ _ => eq_refl)) as H2.
  pose proof (filter_length_le
                (fun r => selected (sql_eq (Task.completed r) true))
                (fun _ => true) (tasks (visible c)) (fun _ _ => eq_refl)) as H3.
  rewrite filter_all in H2, H3.
  assert (H1' : forall a : Task.row,
             selected (sql_and (sql_eq (Task.completed a) false)
                               (sql_lt (Task.due_date a) (Some (CURDATE now))))
             = true ->
             selected (sql_eq (Task.completed a) false) = true).
  { intro a. destruct (Task.completed a); [|reflexivity].
    destruct (sql_lt _ _) as [[|]|]; discriminate. }
  specialize (H1 H1'). lia.
Qed.

(** X11.  After a creation answered 201, GET /api/stats counts one task
    more in total and one more active, as many completed as before, and one
    more overdue exactly when the new task's due date is before the current
    date. *)
Theorem create_then_stats
    (b : CreateBody.t) (now now' : timestamp) (c c' : Conn) (t : Enriched.t)
    (total completed active overdue_ : Z) :
  create_task b now c = (Resolved (mkResponse 201 (task_body t)), c') ->
  get_stats now' c
  = (Resolved (mkResponse 200 (stats_body total completed active overdue_)), c) ->
  get_stats now' c'
  = (Resolved
       (mkResponse 200
          (stats_body (total + 1) completed (active + 1)
             (overdue_
              + if overdue (CURDATE now') (Enriched.task t) then 1 else 0))),
     c').
Proof.
  intros H G. rewrite create_task_unfold in H.
  destruct (title_missing (CreateBody.title b)); [discriminate|].
  cbv zeta in H.
  destruct (INSERT_task _ _ _ _ _ _) as [[taskId|] c1] eqn:I; [|discriminate].
  destruct (create_tags taskId b c1) as [[u|] c2] eqn:T; [|discriminate].
  destruct (create_subtasks taskId b now c2) as [[u'|] c3] eqn:S;
    [|discriminate].
  destruct (create_task_steps b now c c1 c2 c3 taskId u u' I T S)
    as (s & pr & _ & _ & _ & _ & C & Fl).
  destruct (fetch_task taskId (committed c3)) as [[task|] c4] eqn:F;
    [|discriminate].
  injection H as -> ->.
  pose proof F as F'.
  apply fetch_task_get_task in F'. destruct F' as (-> & _ & _).
  unfold fetch_task, bind, SELECT_task, reading in F. rewrite Fl in F.
  cbn in F. injection F as <-.
  revert G.
  unfold get_stats, try_catch, bind, SELECT_COUNT_total, SELECT_COUNT_completed,
    SELECT_COUNT_active, SELECT_COUNT_overdue, reading, json, ret, COUNT.
  intro G. injection G as <- <- <- <-.
  rewrite C. cbn [created visible tasks Enriched.task].
  rewrite !(filter_ext _ _ (selected_overdue (CURDATE now'))).
  rewrite !filter_app, !length_app, !Nat2Z.inj_add.
  cbn [filter].
  destruct (overdue (CURDATE now') (created_row b now c s pr)); cbn;
    rewrite ?Z.add_0_r; reflexivity.
Qed.

Lemma create_then_stats_witness :
  exists t c',
    create_task sample_create 500 sample_conn
    = (Resolved (mkResponse 201 (task_body t)), c')
    /\ get_stats 1728000000 sample_conn
       = (Resolved (mkResponse 200 (stats_body 1 0 1 1)), sample_conn)
    /\ get_stats 1728000000 c'
       = (Resolved
            (mkResponse 200
               (stats_body (1 + 1) 0 (1 + 1)
                  (1 + if overdue (CURDATE 1728000000) (Enriched.task t)
                       then 1 else 0))),
          c').
Proof.
  eexists. eexists. split; [reflexivity|]. split; [reflexivity|].
  apply (create_then_stats sample_create 500 1728000000 sample_conn);
    reflexivity.
Defined.

(** ** More on updates *)

Lemma update_task_unfold (id : Z) (b : UpdateBody.t) (now : timestamp)
    (c : Conn) :
  update_task id b now c
  = match filter (fun r => Task.id r =? id) (tasks (visible c)) with
    | [] =>
        (Resolved (mkResponse 404 (error_body "Task not found")), begun c)
    | _ :: _ =>
        let failed c1 :=
          (Resolved (mkResponse 500 (error_body "Failed to update task")),
           rolled_back c1) in
        match update_writes id b now (begun c) with
        | (Rejected, c1) => failed c1
        | (Resolved _, c1) =>
            match fetch_task id (committed c1) with
            | (Rejected, c2) => failed c2
            | (Resolved task, c2) =>
                (Resolved (mkResponse 200 (task_body task)), c2)
            end
        end
    end.
Proof.
  unfold update_task, try_catch.
  unfold bind at 1. unfold beginTransaction at 1.
  unfold bind at 1. unfold SELECT_task at 1, reading at 1.
  cbn [visible].
  change (mkConn (visible c) (Some (visible c)) (next_task c) (next_tag c)
                 (next_subtask c)) with (begun c).
  destruct (filter (fun r => Task.id r =? id) (tasks (visible c)));
    [reflexivity|].
  unfold bind at 1.
  destruct (update_writes id b now (begun c)) as [[u|] c1]; [|reflexivity].
  unfold bind at 1. unfold commit at 1.
  change (mkConn (visible c1) None (next_task c1) (next_tag c1)
                 (next_subtask c1)) with (committed c1).
  unfold bind at 1.
  destruct (fetch_task id (committed c1)) as [[task|] c2]; reflexivity.
Qed.

Lemma text_eqb_eq (a b : text) : text_eqb a b = true -> a = b.
Proof.
  revert b. induction a as [|x a IH]; intros [|y b]; simpl; intro H;
    try discriminate; [reflexivity|].
  apply andb_true_iff in H. destruct H as [H1 H2].
  apply N.eqb_eq in H1. subst. f_equal. now apply IH.
Qed.

Lemma option_eqb_eq {A : Type} (eqb : A -> A -> bool) (a b : option A) :
  (forall x y, eqb x y = true -> x = y) ->
  option_eqb eqb a b = true -> a = b.
Proof.
  intro E. destruct a, b; simpl; intro H; try discriminate;
    [f_equal; now apply E | reflexivity].
Qed.

Lemma Priority_eqb_eq (a b : Priority) : Priority_eqb a b = true -> a = b.
Proof.
  destruct a, b; simpl; intro H; try discriminate; reflexivity.
Qed.

(** The columns of a row after the UPDATE of the handler. *)
Lemma set_task_columns r s d p due b now :
  let r' := set_task r s d p due b now in
  Task.id r' = Task.id r
  /\ Task.title r' = s
  /\ Task.description r' = d
  /\ Task.priority r' = p
  /\ Task.due_date r' = due
  /\ Task.completed r' = b
  /\ Task.created_at r' = Task.created_at r
  /\ (Task.updated_at r' = now \/ r' = r).
Proof.
  unfold set_task.
  destruct (_ && _) eqn:E.
  - repeat (apply andb_true_iff in E; destruct E as [E ?]).
    apply text_eqb_eq in E.
    apply (option_eqb_eq _ _ _ text_eqb_eq) in H2.
    apply Priority_eqb_eq in H1.
    apply (option_eqb_eq _ _ _ (fun x y => proj1 (Z.eqb_eq x y))) in H0.
    apply eqb_prop in H.
    cbv zeta. repeat split; try assumption. now right.
  - cbv zeta. cbn. repeat split. now left.
Qed.

(** The task rows after the writes of an update that all succeeded. *)
Lemma update_writes_tasks id b now c c' u :
  update_writes id b now c = (Resolved u, c') ->
  exists s pr,
    UpdateBody.title b = Some s
    /\ enum_priority (or_text (UpdateBody.priority b) (lit "medium")) = Some pr
    /\ tasks (visible c')
       = map (fun r => if Task.id r =? id
                       then set_task r s (or_null (UpdateBody.description b)) pr
                              (or_null_date (UpdateBody.due_date b))
                              (or_false (UpdateBody.completed b)) now
                       else r)
             (tasks (visible c)).
Proof.
  intro H. unfold update_writes in H.
  bind_inv H. bind_inv H. bind_inv H. bind_inv H.
  unfold UPDATE_task in H0.
  destruct (UpdateBody.title b) as [s|]; [|discriminate].
  destruct (enum_priority _) as [pr|]; [|discriminate].
  destruct (_ && _); [|discriminate].
  injection H0 as _ <-.
  unfold DELETE_tags in H1. injection H1 as _ <-.
  unfold DELETE_subtasks in H3. injection H3 as _ <-.
  exists s, pr. split; [reflexivity|]. split; [reflexivity|].
  assert (T2 : tasks (visible c2)
               = map (fun r => if Task.id r =? id
                               then set_task r s (or_null (UpdateBody.description b)) pr
                                      (or_null_date (UpdateBody.due_date b))
                                      (or_false (UpdateBody.completed b)) now
                               else r)
                     (tasks (visible c))).
  { destruct (UpdateBody.tags b) as [[|x l]|].
    - now injection H2 as _ <-.
    - apply INSERT_tags_resolved in H2. destruct H2 as [-> _]. reflexivity.
    - now injection H2 as _ <-. }
  destruct (UpdateBody.subtasks b) as [[|x l]|].
  - injection H as _ <-. exact T2.
  - apply INSERT_subtasks_resolved in H. destruct H as (vs & _ & -> & _).
    exact T2.
  - injection H as _ <-. exact T2.
Qed.



Lemma fetch_task_conn (i : Z) (c c' : Conn) (o : outcome Enriched.t) :
  fetch_task i c = (o, c') -> c' = c.
Proof.
  unfold fetch_task, bind, SELECT_task, SELECT_tags, SELECT_subtasks, reading,
    ret, throw.
  destruct (filter _ (tasks (visible c))); intro H; now injection H.
Qed.

Lemma number_tags_other next i j (l : list text) :
  j <> i ->
  filter (fun r => Tag.task_id r =? j)
         (number_tags next (map (fun tag => (i, tag)) l)) = [].
Proof.
  intro N. revert next. induction l as [|a l IH]; intro next; simpl.
  - reflexivity.
  - replace (i =? j) with false by (symmetry; apply Z.eqb_neq; lia).
    apply IH.
Qed.

Lemma number_subtasks_other next now i j vs :
  j <> i ->
  Forall (fun v : Z * text * bool => fst (fst v) = i) vs ->
  filter (fun r => Subtask.task_id r =? j) (number_subtasks next now vs) = [].
Proof.
  intros N F. revert next.
  induction F as [|[[k s] b] vs Hk F IH]; intro next; simpl.
  - reflexivity.
  - simpl in Hk. subst k.
    replace (i =? j) with false by (symmetry; apply Z.eqb_neq; lia).
    apply IH.
Qed.

(** What every other task keeps through the writes of an update. *)
Lemma update_writes_other id b now c c' u j :
  j <> id ->
  update_writes id b now c = (Resolved u, c') ->
  stored_task c' j = stored_task c j
  /\ stored_tags c' j = stored_tags c j
  /\ stored_subtasks c' j = stored_subtasks c j.
Proof.
  intros N W. apply update_writes_resolved in W.
  destruct W as (s & pr & vs & _ & T & G & Nn & S & _).
  apply not_null_entries in Nn. destruct Nn as [Fa _].
  unfold stored_task, stored_tags, stored_subtasks.
  rewrite T, G, S, !filter_app.
  rewrite (filter_map_other Task.id _ id j _
             (fun a => set_task_id a _ _ _ _ _ _) N).
  rewrite (filter_other Tag.task_id id j _ N),
          (filter_other Subtask.task_id id j _ N).
  rewrite (number_tags_other _ _ _ _ N),
          (number_subtasks_other _ _ _ _ _ N Fa), !app_nil_r.
  repeat split.
Qed.

(** X13.  Whatever an update of one task answers, every other task keeps
    its row, its tags and its subtasks. *)
Theorem update_leaves_other_tasks
    (id j : Z) (b : UpdateBody.t) (now : timestamp) (c : Conn) :
  j <> id ->
  stored_task (snd (update_task id b now c)) j = stored_task c j
  /\ stored_tags (snd (update_task id b now c)) j = stored_tags c j
  /\ stored_subtasks (snd (update_task id b now c)) j = stored_subtasks c j.
Proof.
  intro N. rewrite update_task_unfold.
  destruct (filter (fun r => Task.id r =? id) (tasks (visible c))).
  { repeat split. }
  cbv zeta.
  destruct (update_writes id b now (begun c)) as [[u|] c1] eqn:W.
  - pose proof (update_writes_other _ _ _ _ _ _ j N W) as O.
    apply keeps_snapshot_update_writes in W.
    destruct (fetch_task id (committed c1)) as [[task|] c2] eqn:F;
      apply fetch_task_conn in F; subst c2; exact O.
  - apply keeps_snapshot_update_writes in W.
    unfold stored_task, stored_tags, stored_subtasks.
    cbn [snd rolled_back rollback visible]. rewrite W.
    repeat split.
Qed.

Lemma update_leaves_other_tasks_witness :
  1 <> 2
  /\ stored_task (snd (update_task 2 sample_update 600 two_tasks_conn)) 1
     = stored_task two_tasks_conn 1
  /\ stored_tags (snd (update_task 2 sample_update 600 two_tasks_conn)) 1
     = stored_tags two_tasks_conn 1
  /\ stored_subtasks (snd (update_task 2 sample_update 600 two_tasks_conn)) 1
     = stored_subtasks two_tasks_conn 1.
Proof.
  assert (N : 1 <> 2) by discriminate.
  split; [exact N|].
  apply (update_leaves_other_tasks 2 1 sample_update 600 two_tasks_conn N).
Defined.

Example update_two_tasks_conn :
  fst (update_task 2 sample_update 600 two_tasks_conn)
  = Resolved
      (mkResponse 200
         (task_body
            (Enriched.mk
               (Task.mk 2 (lit "write the report") None low None true 500 600)
               []
               [SubtaskItem.mk 5 (lit "outline") false;
                SubtaskItem.mk 6 (lit "figures") true])))
  /\ stored_tags two_tasks_conn 1 = [lit "work"; lit "urgent"].
Proof.
  split; vm_compute; reflexivity.
Qed.

(** ** What the handlers leave behind *)

Lemma counters_le_refl (c : Conn) : counters_le c c.
Proof. unfold counters_le. lia. Qed.

Lemma counters_le_trans (a b c : Conn) :
  counters_le a b -> counters_le b c -> counters_le a c.
Proof. unfold counters_le. lia. Qed.

Lemma grows_ret {A : Type} (a : A) : grows (ret a).
Proof.
  intros c o c' H. injection H as _ <-. apply counters_le_refl.
Qed.

Lemma grows_bind {A B : Type} (m : Query A) (k : A -> Query B) :
  grows m -> (forall a, grows (k a)) -> grows (bind m k).
Proof.
  intros Hm Hk c o c' H. unfold bind in H.
  destruct (m c) as [[a|] c1] eqn:E.
  - exact (counters_le_trans _ _ _ (Hm _ _ _ E) (Hk a _ _ _ H)).
  - injection H as _ <-. exact (Hm _ _ _ E).
Qed.

Ltac grows_step :=
  let H := fresh "H" in
  intro H; injection H as _ <-; unfold counters_le; cbn; lia.

Lemma grows_UPDATE_task title d p due b i now :
  grows (UPDATE_task title d p due b i now).
Proof.
  intros c o c'. unfold UPDATE_task.
  destruct title; [|grows_step].
  destruct (enum_priority p); [|grows_step].
  destruct (_ && _); grows_step.
Qed.

Lemma grows_DELETE_tags i : grows (DELETE_tags i).
Proof.
  intros c o c'. unfold DELETE_tags. grows_step.
Qed.

Lemma grows_DELETE_subtasks i : grows (DELETE_subtasks i).
Proof.
  intros c o c'. unfold DELETE_subtasks. grows_step.
Qed.

Lemma grows_INSERT_tags values : grows (INSERT_tags values).
Proof.
  intros c o c'. unfold INSERT_tags.
  destruct (forallb _ _); grows_step.
Qed.

Lemma grows_INSERT_subtasks values now : grows (INSERT_subtasks values now).
Proof.
  intros c o c'. unfold INSERT_subtasks.
  destruct (not_null values); [|grows_step].
  destruct (forallb _ _); grows_step.
Qed.

Lemma grows_update_writes id b now : grows (update_writes id b now).
Proof.
  unfold update_writes.
  apply grows_bind; [apply grows_UPDATE_task | intros _].
  apply grows_bind; [apply grows_DELETE_tags | intros _].
  apply grows_bind.
  { destruct (UpdateBody.tags b) as [[|x l]|];
      auto using grows_ret, grows_INSERT_tags. }
  intros _.
  apply grows_bind; [apply grows_DELETE_subtasks | intros _].
  destruct (UpdateBody.subtasks b) as [[|x l]|];
    auto using grows_ret, grows_INSERT_subtasks.
Qed.

(** The connection after the writes of an update that all succeeded. *)
Lemma update_writes_effect id b now c c' u :
  update_writes id b now c = (Resolved u, c') ->
  exists s pr vs,
    UpdateBody.title b = Some s
    /\ enum_priority (or_text (UpdateBody.priority b) (lit "medium")) = Some pr
    /\ not_null (map (fun st => (id, entry_text st, entry_completed st))
                     (entries b)) = Some vs
    /\ committed c' = updated id b now c s pr vs.
Proof.
  intro H.
  pose proof (update_writes_tasks _ _ _ _ _ _ H) as (s & pr & Et & Ep & T).
  pose proof (update_writes_resolved _ _ _ _ _ _ H)
    as (s' & pr' & vs & _ & _ & G & Nn & S & _).
  exists s, pr, vs. repeat split; try assumption.
  unfold update_writes in H.
  bind_inv H. bind_inv H. bind_inv H. bind_inv H.
  assert (N0 : next_task c0 = next_task c /\ next_tag c0 = next_tag c
               /\ next_subtask c0 = next_subtask c).
  { unfold UPDATE_task in H0.
    destruct (UpdateBody.title b); [|discriminate].
    destruct (enum_priority _); [|discriminate].
    destruct (_ && _); [|discriminate].
    injection H0 as _ <-. repeat split. }
  unfold DELETE_tags in H1. injection H1 as _ <-.
  assert (N2 : next_task c2 = next_task c
               /\ next_tag c2
                  = next_tag c + Z.of_nat (List.length (supplied_tags b))
               /\ next_subtask c2 = next_subtask c).
  { destruct N0 as (A1 & A2 & A3). unfold supplied_tags.
    destruct (UpdateBody.tags b) as [[|x l]|].
    - injection H2 as _ <-. unfold with_visible. cbn. repeat split; lia.
    - unfold INSERT_tags in H2. destruct (forallb _ _); [|discriminate].
      injection H2 as _ <-. unfold with_visible. cbn [next_task next_tag next_subtask].
      rewrite number_tags_length, length_map. cbn. repeat split; lia.
    - injection H2 as _ <-. unfold with_visible. cbn. repeat split; lia. }
  unfold DELETE_subtasks in H3. injection H3 as _ <-.
  assert (N4 : next_task c' = next_task c
               /\ next_tag c'
                  = next_tag c + Z.of_nat (List.length (supplied_tags b))
               /\ next_subtask c'
                  = next_subtask c + Z.of_nat (List.length vs)).
  { destruct N2 as (A1 & A2 & A3). revert Nn. unfold entries.
    destruct (UpdateBody.subtasks b) as [[|x l]|].
    - intro Nn. injection Nn as <-. injection H as _ <-.
      unfold with_visible. cbn. repeat split; lia.
    - intro Nn. unfold INSERT_subtasks in H. rewrite Nn in H.
      destruct (forallb _ _); [|discriminate].
      injection H as _ <-. unfold with_visible. cbn [next_task next_tag next_subtask].
      rewrite number_subtasks_length. cbn. repeat split; lia.
    - intro Nn. injection Nn as <-. injection H as _ <-.
      unfold with_visible. cbn. repeat split; lia. }
  destruct N4 as (A1 & A2 & A3).
  unfold committed, commit, updated. cbn [snd].
  rewrite A1, A2, A3. f_equal.
  destruct (visible c') as [t g sb]. cbn in T, G, S. now subst.
Qed.

(** A creation either leaves the tables as they were (400, 500) or leaves
    the connection [created]. *)
Lemma create_task_result (b : CreateBody.t) (now : timestamp) (c : Conn) :
  (visible (snd (create_task b now c)) = visible c
   /\ counters_le c (snd (create_task b now c)))
  \/ exists s pr,
       snd (create_task b now c) = created b now c s pr
       /\ has_task (visible c) (next_task c) = false.
Proof.
  rewrite create_task_unfold.
  destruct (title_missing (CreateBody.title b)).
  { left. split; [reflexivity | unfold counters_le; cbn; lia]. }
  cbv zeta.
  destruct (INSERT_task _ _ _ _ _ _) as [[taskId|] c1] eqn:I.
  2:{ apply INSERT_task_rejected in I. subst c1.
      left. split; [reflexivity | unfold counters_le; cbn; lia]. }
  destruct (create_tags taskId b c1) as [[u|] c2] eqn:T.
  2:{ apply create_tags_rejected in T. subst c2.
      apply INSERT_task_effect in I.
      destruct I as (s & pr & _ & _ & _ & _ & _ & ->).
      left. split; [reflexivity | unfold counters_le; cbn; lia]. }
  destruct (create_subtasks taskId b now c2) as [[u'|] c3] eqn:S.
  2:{ apply create_subtasks_rejected in S. subst c3.
      apply INSERT_task_effect in I.
      destruct I as (s & pr & _ & _ & _ & _ & _ & ->).
      apply create_tags_effect in T. destruct T as [-> _].
      left. split; [reflexivity | unfold counters_le; cbn; lia]. }
  destruct (create_task_steps b now c c1 c2 c3 taskId u u' I T S)
    as (s & pr & _ & _ & _ & Fresh & C & _).
  right. exists s, pr. split; [|exact Fresh].
  destruct (fetch_task taskId (committed c3)) as [[t|] c4] eqn:F;
    apply fetch_task_conn in F; subst c4; cbn [snd]; rewrite C; reflexivity.
Qed.

(** An update either leaves the tables as they were (404, 500) or leaves the
    connection [updated]. *)
Lemma update_task_result (id : Z) (b : UpdateBody.t) (now : timestamp)
    (c : Conn) :
  (visible (snd (update_task id b now c)) = visible c
   /\ counters_le c (snd (update_task id b now c)))
  \/ exists s pr vs,
       snd (update_task id b now c) = updated id b now c s pr vs
       /\ has_task (visible c) id = true
       /\ Forall (fun v : Z * text * bool => fst (fst v) = id) vs.
Proof.
  rewrite update_task_unfold.
  destruct (filter (fun r => Task.id r =? id) (tasks (visible c)))
    as [|r l] eqn:E.
  { left. split; [reflexivity | unfold counters_le; cbn; lia]. }
  cbv zeta.
  destruct (update_writes id b now (begun c)) as [[u|] c1] eqn:W.
  - right.
    apply update_writes_effect in W.
    destruct W as (s & pr & vs & _ & _ & Nn & C).
    exists s, pr, vs. split; [|split].
    + destruct (fetch_task id (committed c1)) as [[t|] c2] eqn:F;
        apply fetch_task_conn in F; subst c2; cbn [snd]; rewrite C;
        reflexivity.
    + unfold has_task.
      destruct (existsb _ _) eqn:X; [reflexivity|].
      rewrite (has_task_false (visible c) id X) in E. discriminate.
    + apply not_null_entries in Nn. tauto.
  - left.
    pose proof (keeps_snapshot_update_writes _ _ _ _ _ _ W) as K.
    apply grows_update_writes in W.
    cbn [snd rolled_back rollback visible]. rewrite K. split; [reflexivity|].
    unfold counters_le in *. cbn in *. lia.
Qed.

Lemma referential_spec (t : Tables) :
  referential t = true <->
  (forall g, In g (tags t) -> has_task t (Tag.task_id g) = true)
  /\ (forall s, In s (subtasks t) -> has_task t (Subtask.task_id s) = true).
Proof.
  unfold referential. rewrite andb_true_iff, !forallb_forall. tauto.
Qed.

Lemma number_tags_In next i (l : list text) g :
  In g (number_tags next (map (fun tag => (i, tag)) l)) -> Tag.task_id g = i.
Proof.
  revert next. induction l as [|a l IH]; intro next; simpl.
  - intros [].
  - intros [<- | I]; [reflexivity | exact (IH _ I)].
Qed.

Lemma number_subtasks_In next now i vs s :
  Forall (fun v : Z * text * bool => fst (fst v) = i) vs ->
  In s (number_subtasks next now vs) -> Subtask.task_id s = i.
Proof.
  intro F. revert next. induction F as [|[[k x] b] vs Hk F IH]; intro next;
    simpl.
  - intros [].
  - intros [<- | I]; [exact Hk | exact (IH _ I)].
Qed.

Lemma existsb_id_map (f : Task.row -> Task.row) (i : Z) (l : list Task.row) :
  (forall r, Task.id (f r) = Task.id r) ->
  existsb (fun r => Task.id r =? i) (map f l)
  = existsb (fun r => Task.id r =? i) l.
Proof.
  intro K. induction l as [|r l IH]; simpl; [reflexivity|].
  now rewrite K, IH.
Qed.

Lemma existsb_id_filter_other (i j : Z) (l : list Task.row) :
  j <> i ->
  existsb (fun r => Task.id r =? j) (filter (fun r => negb (Task.id r =? i)) l)
  = existsb (fun r => Task.id r =? j) l.
Proof.
  intro N. induction l as [|r l IH]; simpl; [reflexivity|].
  destruct (Task.id r =? i) eqn:E; simpl.
  - apply Z.eqb_eq in E.
    replace (Task.id r =? j) with false by (symmetry; apply Z.eqb_neq; lia).
    exact IH.
  - now rewrite IH.
Qed.

Lemma if_id_keeps (f : Task.row -> Task.row) (i : Z) :
  (forall r, Task.id (f r) = Task.id r) ->
  forall r, Task.id (if Task.id r =? i then f r else r) = Task.id r.
Proof.
  intros K r. destruct (Task.id r =? i); [apply K | reflexivity].
Qed.

(** X14.  Referential integrity is kept: on a store where every tag and
    every subtask references a task, it is still so after a creation, an
    update, a task toggle, a subtask toggle or a deletion, whatever the
    request and whatever the answer. *)
Theorem handlers_keep_references (c : Conn) :
  referential (visible c) = true ->
  (forall b now, referential (visible (snd (create_task b now c))) = true)
  /\ (forall id b now,
        referential (visible (snd (update_task id b now c))) = true)
  /\ (forall id now, referential (visible (snd (toggle_task id now c))) = true)
  /\ (forall id, referential (visible (snd (toggle_subtask id c))) = true)
  /\ (forall id, referential (visible (snd (delete_task id c))) = true).
Proof.
  intro R. pose proof R as R'. apply referential_spec in R'.
  destruct R' as [Rg Rs].
  split; [|split; [|split; [|split]]].
  - intros b now.
    destruct (create_task_result b now c) as [[V _] | (s & pr & -> & _)].
    + now rewrite V.
    + apply referential_spec. unfold has_task. cbn [created visible tasks tags
        subtasks]. split.
      * intros g I. rewrite existsb_app. apply in_app_or in I.
        destruct I as [I | I].
        -- apply orb_true_iff. left. exact (Rg g I).
        -- apply number_tags_In in I. rewrite I. cbn.
           rewrite Z.eqb_refl. apply orb_true_r.
      * intros x I. rewrite existsb_app. apply in_app_or in I.
        destruct I as [I | I].
        -- apply orb_true_iff. left. exact (Rs x I).
        -- apply number_subtasks_In with (i := next_task c) in I.
           ++ rewrite I. cbn. rewrite Z.eqb_refl. apply orb_true_r.
           ++ clear. induction (submitted_subtasks b); simpl; constructor;
                [reflexivity | assumption].
  - intros id b now.
    destruct (update_task_result id b now c)
      as [[V _] | (s & pr & vs & -> & H & F)].
    + now rewrite V.
    + apply referential_spec. unfold has_task in *.
      cbn [updated visible tasks tags subtasks]. split.
      * intros g I.
        rewrite existsb_id_map by (apply if_id_keeps; intro; apply set_task_id).
        apply in_app_or in I. destruct I as [I | I].
        -- apply filter_In in I. exact (Rg g (proj1 I)).
        -- apply number_tags_In in I. now rewrite I.
      * intros x I.
        rewrite existsb_id_map by (apply if_id_keeps; intro; apply set_task_id).
        apply in_app_or in I. destruct I as [I | I].
        -- apply filter_In in I. exact (Rs x (proj1 I)).
        -- apply (number_subtasks_In _ _ _ _ _ F) in I. now rewrite I.
  - intros id now.
    unfold toggle_task, try_catch, bind, SELECT_task_completed, reading.
    destruct (map Task.completed _) as [|b0 l]; [exact R|].
    cbn. apply referential_spec. unfold has_task. cbn. split.
    + intros g I.
      rewrite existsb_id_map by (apply if_id_keeps; intro; apply set_task_id).
      exact (Rg g I).
    + intros x I.
      rewrite existsb_id_map by (apply if_id_keeps; intro; apply set_task_id).
      exact (Rs x I).
  - intro id.
    unfold toggle_subtask, try_catch, bind, SELECT_subtask_completed, reading.
    destruct (map Subtask.completed _) as [|b0 l]; [exact R|].
    cbn. apply referential_spec. unfold has_task. cbn. split.
    + exact Rg.
    + intros x I. apply in_map_iff in I. destruct I as (x0 & <- & I).
      specialize (Rs x0 I). unfold has_task in Rs.
      destruct (Subtask.id x0 =? id); exact Rs.
  - intro id.
    unfold delete_task, try_catch, bind, DELETE_task.
    destruct (filter (fun r => Task.id r =? id) (tasks (visible c)));
      [exact R|].
    cbn. apply referential_spec. unfold has_task. cbn. split.
    + intros g I. apply filter_In in I. destruct I as [I N].
      apply negb_true_iff, Z.eqb_neq in N.
      rewrite existsb_id_filter_other by assumption. exact (Rg g I).
    + intros x I. apply filter_In in I. destruct I as [I N].
      apply negb_true_iff, Z.eqb_neq in N.
      rewrite existsb_id_filter_other by assumption. exact (Rs x I).
Qed.

Lemma handlers_keep_references_witness :
  referential (visible sample_conn) = true
  /\ (forall b now,
        referential (visible (snd (create_task b now sample_conn))) = true)
  /\ (forall id b now,
        referential (visible (snd (update_task id b now sample_conn))) = true)
  /\ (forall id now,
        referential (visible (snd (toggle_task id now sample_conn))) = true)
  /\ (forall id,
        referential (visible (snd (toggle_subtask id sample_conn))) = true)
  /\ (forall id,
        referential (visible (snd (delete_task id sample_conn))) = true).
Proof.
  split.
  - reflexivity.
  - apply (handlers_keep_references sample_conn). reflexivity.
Defined.

(** ** Identifiers stay distinct *)

Lemma number_tags_ids next values r :
  In r (number_tags next values) ->
  next <= Tag.id r < next + Z.of_nat (List.length values).
Proof.
  revert next. induction values as [|[i n] l IH]; intro next.
  - intros [].
  - cbn [number_tags List.length]. intros [<- | I].
    + cbn. lia.
    + specialize (IH _ I). lia.
Qed.

Lemma number_tags_NoDup next values :
  NoDup (map Tag.id (number_tags next values)).
Proof.
  revert next. induction values as [|[i n] l IH]; intro next; cbn.
  - constructor.
  - constructor; [|apply IH].
    intro I. apply in_map_iff in I. destruct I as (r & E & I).
    apply number_tags_ids in I. lia.
Qed.

Lemma number_subtasks_ids next now values r :
  In r (number_subtasks next now values) ->
  next <= Subtask.id r < next + Z.of_nat (List.length values).
Proof.
  revert next. induction values as [|[[i s] b] l IH]; intro next.
  - intros [].
  - cbn [number_subtasks List.length]. intros [<- | I].
    + cbn. lia.
    + specialize (IH _ I). lia.
Qed.

Lemma number_subtasks_NoDup next now values :
  NoDup (map Subtask.id (number_subtasks next now values)).
Proof.
  revert next. induction values as [|[[i s] b] l IH]; intro next; cbn.
  - constructor.
  - constructor; [|apply IH].
    intro I. apply in_map_iff in I. destruct I as (r & E & I).
    apply number_subtasks_ids in I. lia.
Qed.

Lemma NoDup_map_filter {A : Type} (key : A -> Z) (p : A -> bool) (l : list A) :
  NoDup (map key l) -> NoDup (map key (filter p l)).
Proof.
  induction l as [|a l IH]; simpl; intro N.
  - constructor.
  - apply NoDup_cons_iff in N. destruct N as [Na N].
    destruct (p a); simpl; [|exact (IH N)].
    constructor; [|exact (IH N)].
    intro I. apply Na. apply in_map_iff in I. destruct I as (x & E & I).
    apply filter_In in I. apply in_map_iff. exists x. tauto.
Qed.

Lemma NoDup_map_app_fresh {A : Type} (key : A -> Z) (n : Z) (old new : list A) :
  NoDup (map key old) -> (forall r, In r old -> key r < n) ->
  NoDup (map key new) -> (forall r, In r new -> n <= key r) ->
  NoDup (map key (old ++ new)).
Proof.
  intros No Fo Nn Fn. rewrite map_app. apply NoDup_app; try assumption.
  intros k I J.
  apply in_map_iff in I. destruct I as (x & <- & I).
  apply in_map_iff in J. destruct J as (y & E & J).
  specialize (Fo x I). specialize (Fn y J). lia.
Qed.

Lemma keys_ok_same_tables (c c' : Conn) :
  visible c' = visible c -> counters_le c c' -> keys_ok c -> keys_ok c'.
Proof.
  unfold keys_ok, fresh_counters, counters_le.
  intros -> (L1 & L2 & L3) (N1 & N2 & N3 & F1 & F2 & F3).
  repeat split; try assumption.
  - intros r I. specialize (F1 r I). lia.
  - intros r I. specialize (F2 r I). lia.
  - intros r I. specialize (F3 r I). lia.
Qed.

Lemma map_id_if (f : Task.row -> Task.row) (i : Z) (l : list Task.row) :
  (forall r, Task.id (f r) = Task.id r) ->
  map Task.id (map (fun r => if Task.id r =? i then f r else r) l)
  = map Task.id l.
Proof.
  intro K. rewrite map_map. apply map_ext. now apply if_id_keeps.
Qed.

Lemma In_map_if (f : Task.row -> Task.row) (i : Z) (l : list Task.row) r :
  (forall r, Task.id (f r) = Task.id r) ->
  In r (map (fun r => if Task.id r =? i then f r else r) l) ->
  exists r0, In r0 l /\ Task.id r0 = Task.id r.
Proof.
  intros K I. apply in_map_iff in I. destruct I as (r0 & <- & I).
  exists r0. split; [exact I | symmetry; now apply if_id_keeps].
Qed.

(** X15.  Identifiers stay distinct and are never reused: on a store where
    the ids of each table are distinct and below the AUTO_INCREMENT
    counters, it is still so after a creation, an update, a task toggle, a
    subtask toggle or a deletion, whatever the request and whatever the
    answer (a rolled-back insert keeps the counter it advanced). *)
Theorem handlers_keep_keys (c : Conn) :
  keys_ok c ->
  (forall b now, keys_ok (snd (create_task b now c)))
  /\ (forall id b now, keys_ok (snd (update_task id b now c)))
  /\ (forall id now, keys_ok (snd (toggle_task id now c)))
  /\ (forall id, keys_ok (snd (toggle_subtask id c)))
  /\ (forall id, keys_ok (snd (delete_task id c))).
Proof.
  intro K. pose proof K as (N1 & N2 & N3 & F1 & F2 & F3).
  split; [|split; [|split; [|split]]].
  - intros b now.
    destruct (create_task_result b now c) as [[V L] | (s & pr & -> & _)].
    + exact (keys_ok_same_tables _ _ V L K).
    + unfold keys_ok, fresh_counters.
      cbn [created visible tasks tags subtasks next_task next_tag next_subtask].
      split; [|split; [|split; [|split; [|split]]]].
      * apply (NoDup_map_app_fresh Task.id (next_task c)); try assumption.
        -- repeat constructor. intros [].
        -- intros r [<- | []]. cbn. lia.
      * apply (NoDup_map_app_fresh Tag.id (next_tag c)); try assumption.
        -- apply number_tags_NoDup.
        -- intros r I. apply number_tags_ids in I. lia.
      * apply (NoDup_map_app_fresh Subtask.id (next_subtask c));
          try assumption.
        -- apply number_subtasks_NoDup.
        -- intros r I. apply number_subtasks_ids in I. lia.
      * intros r I. apply in_app_or in I. destruct I as [I | [<- | []]].
        -- specialize (F1 r I). lia.
        -- cbn. lia.
      * intros r I. apply in_app_or in I. destruct I as [I | I].
        -- specialize (F2 r I). lia.
        -- apply number_tags_ids in I. rewrite length_map in I. lia.
      * intros r I. apply in_app_or in I. destruct I as [I | I].
        -- specialize (F3 r I). lia.
        -- apply number_subtasks_ids in I. rewrite length_map in I. lia.
  - intros id b now.
    destruct (update_task_result id b now c)
      as [[V L] | (s & pr & vs & -> & _ & _)].
    + exact (keys_ok_same_tables _ _ V L K).
    + unfold keys_ok, fresh_counters.
      cbn [updated visible tasks tags subtasks next_task next_tag next_subtask].
      split; [|split; [|split; [|split; [|split]]]].
      * rewrite map_id_if by (intro; apply set_task_id). exact N1.
      * apply (NoDup_map_app_fresh Tag.id (next_tag c)).
        -- now apply NoDup_map_filter.
        -- intros r I. apply filter_In in I. exact (F2 r (proj1 I)).
        -- apply number_tags_NoDup.
        -- intros r I. apply number_tags_ids in I. lia.
      * apply (NoDup_map_app_fresh Subtask.id (next_subtask c)).
        -- now apply NoDup_map_filter.
        -- intros r I. apply filter_In in I. exact (F3 r (proj1 I)).
        -- apply number_subtasks_NoDup.
        -- intros r I. apply number_subtasks_ids in I. lia.
      * intros r I.
        apply In_map_if in I; [|intro; apply set_task_id].
        destruct I as (r0 & I & <-). exact (F1 r0 I).
      * intros r I. apply in_app_or in I. destruct I as [I | I].
        -- apply filter_In in I. specialize (F2 r (proj1 I)). lia.
        -- apply number_tags_ids in I. rewrite length_map in I. lia.
      * intros r I. apply in_app_or in I. destruct I as [I | I].
        -- apply filter_In in I. specialize (F3 r (proj1 I)). lia.
        -- apply number_subtasks_ids in I. lia.
  - intros id now.
    unfold toggle_task, try_catch, bind, SELECT_task_completed, reading.
    destruct (map Task.completed _) as [|b0 l]; [exact K|].
    unfold keys_ok, fresh_counters. cbn.
    rewrite map_id_if by (intro; apply set_task_id).
    repeat split; try assumption.
    intros r I. apply In_map_if in I; [|intro; apply set_task_id].
    destruct I as (r0 & I & <-). exact (F1 r0 I).
  - intro id.
    unfold toggle_subtask, try_catch, bind, SELECT_subtask_completed, reading.
    destruct (map Subtask.completed _) as [|b0 l]; [exact K|].
    unfold keys_ok, fresh_counters. cbn.
    assert (E : map Subtask.id
                  (map (fun r => if Subtask.id r =? id
                                 then Subtask.mk (Subtask.id r) (Subtask.task_id r)
                                        (Subtask.text r) (negb b0)
                                        (Subtask.created_at r)
                                 else r)
                       (subtasks (visible c)))
                = map Subtask.id (subtasks (visible c))).
    { rewrite map_map. apply map_ext. intro r.
      destruct (Subtask.id r =? id); reflexivity. }
    rewrite E. repeat split; try assumption.
    intros r I. apply in_map_iff in I. destruct I as (r0 & <- & I).
    specialize (F3 r0 I). destruct (Subtask.id r0 =? id); exact F3.
  - intro id.
    unfold delete_task, try_catch, bind, DELETE_task.
    destruct (filter (fun r => Task.id r =? id) (tasks (visible c)))
      as [|hit hits]; [exact K|].
    unfold keys_ok, fresh_counters. cbn.
    repeat split; try (now apply NoDup_map_filter).
    + intros r I. apply filter_In in I. exact (F1 r (proj1 I)).
    + intros r I. apply filter_In in I. exact (F2 r (proj1 I)).
    + intros r I. apply filter_In in I. exact (F3 r (proj1 I)).
Qed.

Lemma sample_conn_keys_ok : keys_ok sample_conn.
Proof.
  unfold keys_ok, fresh_counters. cbn.
  repeat split;
    try (repeat (constructor; [cbn; intuition discriminate|]); constructor);
    intros r I; repeat (destruct I as [<- | I]; [cbn; lia|]); destruct I.
Qed.

Lemma handlers_keep_keys_witness :
  keys_ok sample_conn
  /\ (forall b now, keys_ok (snd (create_task b now sample_conn)))
  /\ (forall id b now, keys_ok (snd (update_task id b now sample_conn)))
  /\ (forall id now, keys_ok (snd (toggle_task id now sample_conn)))
  /\ (forall id, keys_ok (snd (toggle_subtask id sample_conn)))
  /\ (forall id, keys_ok (snd (delete_task id sample_conn))).
Proof.
  split.
  - exact sample_conn_keys_ok.
  - apply (handlers_keep_keys sample_conn). exact sample_conn_keys_ok.
Defined.

(** ** More on creation *)


Lemma create_task_succeeds_witness :
  fresh_counters sample_conn
  /\ acceptable sample_create = true
  /\ exists t c',
       create_task sample_create 500 sample_conn
       = (Resolved (mkResponse 201 (task_body t)), c').
Proof.
  assert (F : fresh_counters sample_conn) by exact (proj1 sample_create_accepted).
  split; [exact F|]. split; [reflexivity|].
  apply (create_task_succeeds sample_create 500 sample_conn F). reflexivity.
Defined.

(** X18.  A creation is answered 400 exactly when the title is missing,
    empty or white space only: a title with any other character, whatever
    surrounds it, is never refused as a validation error. *)
Theorem create_400_iff_blank (b : CreateBody.t) (now : timestamp) (c : Conn) :
  (exists body, fst (create_task b now c) = Resolved (mkResponse 400 body))
  <-> blank_title (CreateBody.title b).
Proof.
  rewrite <- title_missing_blank, create_task_unfold.
  destruct (title_missing (CreateBody.title b)).
  - split; [reflexivity|]. intros _. eexists. reflexivity.
  - split; [|discriminate]. intros [body H]. exfalso. cbv zeta in H.
    destruct (INSERT_task _ _ _ _ _ _) as [[taskId|] c1]; [|discriminate].
    destruct (create_tags taskId b c1) as [[u|] c2]; [|discriminate].
    destruct (create_subtasks taskId b now c2) as [[u'|] c3]; [|discriminate].
    destruct (fetch_task taskId (committed c3)) as [[t|] c4]; discriminate.
Qed.

(** X19.  A task just created is in the list: after a creation answered
    201, GET /api/tasks has an entry with the row and the tags of the
    response and with its subtasks. *)
Theorem create_then_list
    (b : CreateBody.t) (now : timestamp) (c c' : Conn) (t : Enriched.t) :
  create_task b now c = (Resolved (mkResponse 201 (task_body t)), c') ->
  exists l e,
    list_tasks c' = (Resolved (mkResponse 200 (tasks_body l)), c')
    /\ In e l
    /\ Enriched.task e = Enriched.task t
    /\ Enriched.tags e = Enriched.tags t
    /\ Permutation (Enriched.subtasks e) (Enriched.subtasks t).
Proof.
  intro H. rewrite create_task_unfold in H.
  destruct (title_missing (CreateBody.title b)); [discriminate|].
  cbv zeta in H.
  destruct (INSERT_task _ _ _ _ _ _) as [[taskId|] c1] eqn:I; [|discriminate].
  destruct (create_tags taskId b c1) as [[u|] c2] eqn:T; [|discriminate].
  destruct (create_subtasks taskId b now c2) as [[u'|] c3] eqn:S;
    [|discriminate].
  destruct (create_task_steps b now c c1 c2 c3 taskId u u' I T S)
    as (s & pr & _ & _ & Ei & _ & C & Fl).
  destruct (fetch_task taskId (committed c3)) as [[task|] c4] eqn:F;
    [|discriminate].
  injection H as -> ->.
  pose proof (fetch_task_conn _ _ _ _ F) as ->.
  unfold fetch_task, bind, SELECT_task, SELECT_tags, SELECT_subtasks, reading,
    ret in F.
  rewrite Fl in F. injection F as <-.
  exists (map (listed (committed c3))
              (order_by (fun a b => Task.created_at b <=? Task.created_at a)
                        (tasks (visible (committed c3))))),
         (listed (committed c3) (created_row b now c s pr)).
  split; [apply list_tasks_listed|]. split; [|split; [|split]].
  - apply in_map.
    apply (Permutation_in _ (Permutation_sym (order_by_Permutation _ _))).
    rewrite C. cbn [created visible tasks]. apply in_or_app. right. now left.
  - reflexivity.
  - cbn [listed Enriched.tags Enriched.task created_row Task.id].
    now rewrite Ei.
  - cbn [listed Enriched.subtasks Enriched.task created_row Task.id].
    rewrite Ei. apply Permutation_map, order_by_Permutation.
Qed.

Lemma create_then_list_witness :
  exists t c',
    create_task sample_create 500 sample_conn
    = (Resolved (mkResponse 201 (task_body t)), c')
    /\ exists l e,
         list_tasks c' = (Resolved (mkResponse 200 (tasks_body l)), c')
         /\ In e l
         /\ Enriched.task e = Enriched.task t
         /\ Enriched.tags e = Enriched.tags t
         /\ Permutation (Enriched.subtasks e) (Enriched.subtasks t).
Proof.
  let r := eval vm_compute in (create_task sample_create 500 sample_conn) in
  match r with
  | (Resolved (mkResponse _ (task_body ?t)), ?c') => exists t, c'
  end.
  split; [vm_compute; reflexivity|].
  apply (create_then_list sample_create 500 sample_conn).
  vm_compute. reflexivity.
Defined.

(** * The statistics on the stored column *)

Lemma filter_ext_in_length {A : Type} (f g : A -> bool) (l : list A) :
  (forall a, In a l -> f a = g a) ->
  List.length (filter f l) = List.length (filter g l).
Proof.
  intro H. induction l as [|a l IH]; simpl.
  - reflexivity.
  - rewrite (H a (or_introl eq_refl)).
    assert (E : List.length (filter f l) = List.length (filter g l))
      by (apply IH; intros x I; apply H; now right).
    destruct (g a); simpl; now rewrite E.
Qed.

Lemma filter_map_length {A B : Type} (f : A -> B) (p : B -> bool)
    (l : list A) :
  List.length (filter p (map f l))
  = List.length (filter (fun a => p (f a)) l).
Proof.
  induction l as [|a l IH]; simpl.
  - reflexivity.
  - destruct (p (f a)); simpl; now rewrite IH.
Qed.

(** On a store whose flags are [true] or [false], the handler answers the
    statistics of the stored columns. *)
Lemma get_stats_stored (now : timestamp) (c : Conn) :
  get_stats now c
  = (Resolved
       (mkResponse 200 (stored_stats now (map stored_of (tasks (visible c))))),
     c).
Proof.
  unfold get_stats, try_catch, bind, SELECT_COUNT_total, SELECT_COUNT_completed,
    SELECT_COUNT_active, SELECT_COUNT_overdue, reading, json, ret, stored_stats,
    COUNT.
  rewrite length_map, !filter_map_length.
  do 4 f_equal; f_equal; apply filter_ext_in_length; intros r _;
    unfold stored_of, sql_eq_int, sql_eq, TRUE, FALSE; cbn;
    destruct (Task.completed r); reflexivity.
Qed.

(** With a boolean (or no) [completed] in the body, the UPDATE on the stored
    columns is the UPDATE of the handler. *)
Lemma stored_UPDATE_boolean (s : text) (d : option text) (p : Priority)
    (due : option date) (v : option bool) (i : Z) (now : timestamp)
    (rows : list Task.row) :
  stored_UPDATE due (completed_of v) i (map stored_of rows)
  = Some (map stored_of
            (map (fun r => if Task.id r =? i
                           then set_task r s d p due (or_false v) now
                           else r)
                 rows)).
Proof.
  unfold stored_UPDATE.
  assert (T : tinyint_of (or_false_value (completed_of v))
              = Some (if or_false v then 1 else 0)).
  { destruct v as [[|]|]; reflexivity. }
  rewrite T. f_equal. rewrite !map_map. apply map_ext. intro r.
  cbn [stored_of Stored.id].
  destruct (Task.id r =? i); [|reflexivity].
  destruct (set_task_columns r s d p due (or_false v) now)
    as (C1 & _ & _ & _ & C5 & C6 & _).
  unfold stored_of. now rewrite C1, C5, C6.
Qed.

(** An update with a boolean (or no) [completed] keeps the flags 0 or 1. *)
Lemma stored_UPDATE_two_valued (due : option date) (v : option bool) (i : Z)
    (rows : list Stored.task) :
  two_valued rows ->
  exists rows',
    stored_UPDATE due (completed_of v) i rows = Some rows'
    /\ two_valued rows'.
Proof.
  intro T. unfold stored_UPDATE.
  assert (E : exists b, tinyint_of (or_false_value (completed_of v))
                        = Some (if b : bool then 1 else 0)).
  { destruct v as [b|]; [exists b | exists false]; reflexivity. }
  destruct E as [b ->]. eexists. split; [reflexivity|].
  intros r I. apply in_map_iff in I. destruct I as (r0 & <- & I).
  destruct (Stored.id r0 =? i); [|exact (T r0 I)].
  cbn. destruct b; [now right | now left].
Qed.

(** C10, amended.  On a store where the completed column of every task
    holds 0 or 1, the statistics satisfy total = completed + active: total
    counts every row, completed the rows that hold 1 and active the rows
    that hold 0, and these two partition the table. *)
Theorem stats_total_completed_active_two_valued
    (now : timestamp) (rows : list Stored.task) :
  two_valued rows ->
  exists total completed active overdue_,
    stored_stats now rows = stats_body total completed active overdue_
    /\ total = Z.of_nat (List.length rows)
    /\ completed
       = Z.of_nat (List.length
                     (filter (fun r => Stored.completed r =? 1) rows))
    /\ active
       = Z.of_nat (List.length
                     (filter (fun r => Stored.completed r =? 0) rows))
    /\ total = completed + active.
Proof.
  intro T. unfold stored_stats, COUNT.
  assert (Sel : forall v k, selected (sql_eq_int v k) = (v =? k)).
  { intros v k. unfold sql_eq_int. cbn. now destruct (v =? k). }
  do 4 eexists. split; [reflexivity|].
  split; [reflexivity|].
  split; [do 2 f_equal; apply filter_ext; intro r; apply Sel|].
  split; [do 2 f_equal; apply filter_ext; intro r; apply Sel|].
  rewrite (filter_partition_length
             (fun r => selected (sql_eq_int (Stored.completed r) TRUE)) rows)
    at 1.
  rewrite Nat2Z.inj_add. do 2 f_equal.
  apply filter_ext_in_length. intros r I.
  unfold sql_eq_int, TRUE, FALSE.
  destruct (T r I) as [-> | ->]; reflexivity.
Qed.

Lemma stats_total_completed_active_two_valued_witness :
  two_valued (map stored_of (tasks (visible two_tasks_conn)))
  /\ exists total completed active overdue_,
       stored_stats 1728000000 (map stored_of (tasks (visible two_tasks_conn)))
       = stats_body total completed active overdue_
       /\ total
          = Z.of_nat (List.length
                        (map stored_of (tasks (visible two_tasks_conn))))
       /\ completed
          = Z.of_nat (List.length
                        (filter (fun r => Stored.completed r =? 1)
                           (map stored_of (tasks (visible two_tasks_conn)))))
       /\ active
          = Z.of_nat (List.length
                        (filter (fun r => Stored.completed r =? 0)
                           (map stored_of (tasks (visible two_tasks_conn)))))
       /\ total = completed + active.
Proof.
  assert (T : two_valued (map stored_of (tasks (visible two_tasks_conn)))).
  { intros r I. apply in_map_iff in I. destruct I as (r0 & <- & _).
    cbn. destruct (Task.completed r0); [now right | now left]. }
  split; [exact T|].
  apply (stats_total_completed_active_two_valued 1728000000 _ T).
Defined.

(** C10 fails as stated.  The store holds one task, not completed; PUT
    /api/tasks/1 with [completed: 2] binds 2 (it is truthy, so
    [completed || false] keeps it) and the column stores it.  The task is
    then counted in total, but 2 is neither TRUE nor FALSE: completed and
    active are both 0. *)
Lemma stats_total_not_completed_plus_active :
  exists rows total completed active overdue_,
    stored_UPDATE None (completed_number 2) 1
      (map stored_of (tasks (visible sample_conn)))
    = Some rows
    /\ rows = [Stored.mk 1 None 2]
    /\ stored_stats 1728000000 rows
       = stats_body total completed active overdue_
    /\ total = 1 /\ completed = 0 /\ active = 0
    /\ total <> completed + active.
Proof.
  exists [Stored.mk 1 None 2], 1, 0, 0, 0.
  repeat split; try reflexivity. discriminate.
Qed.

(** * The order of the subtasks sent, on the stores the handlers build *)

Lemma sorted_ascending (l : list Z) :
  StronglySorted Z.lt l -> ascending l = true.
Proof.
  induction 1 as [|a l S IH F].
  - reflexivity.
  - destruct l as [|b l]; [reflexivity|].
    rewrite ascending_cons2, IH, andb_true_r.
    apply Z.leb_le. inversion F as [|? ? Hab _]; subst. lia.
Qed.

Lemma sorted_app (l1 l2 : list Z) :
  StronglySorted Z.lt l1 -> StronglySorted Z.lt l2 ->
  (forall a b, In a l1 -> In b l2 -> a < b) ->
  StronglySorted Z.lt (l1 ++ l2).
Proof.
  intros S1 S2 H. induction S1 as [|a l S IH F]; simpl.
  - exact S2.
  - constructor.
    + apply IH. intros x y I J. apply H; [now right | exact J].
    + apply Forall_app. split; [exact F|].
      apply Forall_forall. intros y J. apply H; [now left | exact J].
Qed.

Lemma sorted_map_filter (p : Subtask.row -> bool) (l : list Subtask.row) :
  StronglySorted Z.lt (map Subtask.id l) ->
  StronglySorted Z.lt (map Subtask.id (filter p l)).
Proof.
  induction l as [|r l IH]; simpl; intro S.
  - constructor.
  - inversion S as [|? ? S' F]; subst.
    destruct (p r); simpl; [|exact (IH S')].
    constructor; [exact (IH S')|].
    apply Forall_forall. intros x I.
    apply in_map_iff in I. destruct I as (y & <- & I).
    apply filter_In in I.
    apply (proj1 (Forall_forall _ _) F). apply in_map. tauto.
Qed.

Lemma number_subtasks_sorted next now vs :
  StronglySorted Z.lt (map Subtask.id (number_subtasks next now vs)).
Proof.
  revert next. induction vs as [|[[i s] b] vs IH]; intro next; cbn.
  - constructor.
  - constructor; [apply IH|].
    apply Forall_forall. intros x I.
    apply in_map_iff in I. destruct I as (r & <- & I).
    apply number_subtasks_ids in I. lia.
Qed.

(** The order is kept when rows are removed and numbered rows appended. *)
Lemma in_id_order_replace (c c' : Conn) (p : Subtask.row -> bool)
    (now : timestamp) (vs : list (Z * text * bool)) :
  in_id_order c ->
  subtasks (visible c')
  = filter p (subtasks (visible c)) ++ number_subtasks (next_subtask c) now vs ->
  next_subtask c' = next_subtask c + Z.of_nat (List.length vs) ->
  in_id_order c'.
Proof.
  intros [S B] E N. unfold in_id_order. rewrite E, N, map_app. split.
  - apply sorted_app.
    + now apply sorted_map_filter.
    + apply number_subtasks_sorted.
    + intros a b I J.
      apply in_map_iff in I. destruct I as (x & <- & I).
      apply in_map_iff in J. destruct J as (y & <- & J).
      apply filter_In in I. apply number_subtasks_ids in J.
      specialize (B x (proj1 I)). lia.
  - intros r I. apply in_app_or in I. destruct I as [I | I].
    + apply filter_In in I. specialize (B r (proj1 I)). lia.
    + apply number_subtasks_ids in I. lia.
Qed.

Lemma in_id_order_same (c c' : Conn) :
  in_id_order c ->
  subtasks (visible c') = subtasks (visible c) ->
  next_subtask c <= next_subtask c' ->
  in_id_order c'.
Proof.
  intros [S B] E N. unfold in_id_order. rewrite E. split; [exact S|].
  intros r I. specialize (B r I). lia.
Qed.

Lemma in_id_order_created (b : CreateBody.t) (now : timestamp) (c : Conn)
    (s : text) (pr : Priority) :
  in_id_order c -> in_id_order (created b now c s pr).
Proof.
  intro O.
  apply (in_id_order_replace c _ (fun _ => true) now
           (map (fun st => (next_task c, st, false)) (submitted_subtasks b)) O).
  - cbn [created visible subtasks]. now rewrite filter_all.
  - cbn [created next_subtask]. now rewrite length_map.
Qed.

Lemma in_id_order_updated (id : Z) (b : UpdateBody.t) (now : timestamp)
    (c : Conn) (s : text) (pr : Priority) (vs : list (Z * text * bool)) :
  in_id_order c -> in_id_order (updated id b now c s pr vs).
Proof.
  intro O.
  apply (in_id_order_replace c _
           (fun r => negb (Subtask.task_id r =? id)) now vs O); reflexivity.
Qed.

Lemma in_id_order_empty : in_id_order empty_conn.
Proof.
  split; [constructor | intros r []].
Qed.

(** Every handler keeps the subtasks table in id order. *)
Lemma route_in_id_order (r : Request) (now : timestamp) (c : Conn) :
  in_id_order c -> in_id_order (snd (route r now c)).
Proof.
  intro O. destruct r as [|id|b|id b|id|id|id|]; cbn [route].
  - now rewrite list_tasks_listed.
  - unfold get_task, try_catch, bind, SELECT_task, reading.
    destruct (filter _ (tasks (visible c))); exact O.
  - destruct (create_task_result b now c) as [[V L] | (s & pr & -> & _)].
    + apply (in_id_order_same c _ O); [now rewrite V | apply L].
    + now apply in_id_order_created.
  - destruct (update_task_result id b now c)
      as [[V L] | (s & pr & vs & -> & _ & _)].
    + apply (in_id_order_same c _ O); [now rewrite V | apply L].
    + now apply in_id_order_updated.
  - unfold toggle_task, try_catch, bind, SELECT_task_completed, reading.
    destruct (map Task.completed _); [exact O|].
    apply (in_id_order_same c _ O); [reflexivity | cbn; lia].
  - unfold toggle_subtask, try_catch, bind, SELECT_subtask_completed, reading.
    destruct (map Subtask.completed _) as [|b0 l]; [exact O|].
    destruct O as [S B]. split; cbn.
    + rewrite map_map.
      rewrite (map_ext _ Subtask.id); [exact S|].
      intro r. destruct (Subtask.id r =? id); reflexivity.
    + intros r I. apply in_map_iff in I. destruct I as (r0 & <- & I).
      specialize (B r0 I). destruct (Subtask.id r0 =? id); exact B.
  - unfold delete_task, try_catch, bind, DELETE_task.
    destruct (filter (fun r => Task.id r =? id) (tasks (visible c)))
      as [|hit hits]; [exact O|].
    destruct O as [S B]. split; cbn.
    + now apply sorted_map_filter.
    + intros r I. apply filter_In in I. exact (B r (proj1 I)).
  - exact O.
Qed.

Lemma serve_in_id_order (history : list (Request * timestamp)) (c : Conn) :
  in_id_order c -> in_id_order (serve history c).
Proof.
  revert c. induction history as [|[r now] rest IH]; intros c O; cbn.
  - exact O.
  - apply IH. now apply route_in_id_order.
Qed.

(** On a table in id order a SELECT without ORDER BY sends ascending ids. *)
Lemma selected_subtasks_ascending (c : Conn) (i : Z) :
  in_id_order c ->
  ascending
    (map SubtaskItem.id
       (map subtask_item
          (filter (fun r => Subtask.task_id r =? i) (subtasks (visible c)))))
  = true.
Proof.
  intros [S _]. rewrite map_map. cbn [subtask_item SubtaskItem.id].
  apply sorted_ascending. now apply sorted_map_filter.
Qed.

Lemma fetch_task_ascending (i : Z) (c c' : Conn) (t : Enriched.t) :
  in_id_order c ->
  fetch_task i c = (Resolved t, c') ->
  ascending (subtask_ids t) = true.
Proof.
  intros O.
  unfold fetch_task, bind, SELECT_task, SELECT_tags, SELECT_subtasks, reading,
    ret, throw.
  destruct (filter _ (tasks (visible c))); [discriminate|].
  intro H. injection H as <- _.
  exact (selected_subtasks_ascending c i O).
Qed.

(** The tasks a handler sends from a table in id order have their subtasks
    in ascending id order. *)
Lemma route_sent_ascending (r : Request) (now : timestamp) (c : Conn) :
  in_id_order c ->
  forallb (fun t => ascending (subtask_ids t)) (sent_tasks (fst (route r now c)))
  = true.
Proof.
  intro O. destruct r as [|id|b|id b|id|id|id|]; cbn [route].
  - rewrite list_tasks_listed. cbn [fst sent_tasks].
    apply forallb_forall. intros t I.
    apply in_map_iff in I. destruct I as (row & <- & _).
    unfold subtask_ids. cbn [listed Enriched.subtasks].
    rewrite map_map. cbn [subtask_item SubtaskItem.id].
    apply ascending_order_by.
  - unfold get_task, try_catch, bind, SELECT_task, SELECT_tags, SELECT_subtasks,
      reading, json, ret.
    destruct (filter _ (tasks (visible c))) as [|row rows]; [reflexivity|].
    cbn [fst sent_tasks forallb]. rewrite andb_true_r.
    exact (selected_subtasks_ascending c (Task.id row) O).
  - rewrite create_task_unfold.
    destruct (title_missing (CreateBody.title b)); [reflexivity|].
    cbv zeta.
    destruct (INSERT_task _ _ _ _ _ _) as [[taskId|] c1] eqn:I; [|reflexivity].
    destruct (create_tags taskId b c1) as [[u|] c2] eqn:T; [|reflexivity].
    destruct (create_subtasks taskId b now c2) as [[u'|] c3] eqn:S;
      [|reflexivity].
    destruct (create_task_steps b now c c1 c2 c3 taskId u u' I T S)
      as (s & pr & _ & _ & _ & _ & C & _).
    destruct (fetch_task taskId (committed c3)) as [[t|] c4] eqn:F;
      [|reflexivity].
    cbn [fst sent_tasks forallb]. rewrite andb_true_r.
    rewrite C in F.
    exact (fetch_task_ascending _ _ _ _ (in_id_order_created b now c s pr O) F).
  - rewrite update_task_unfold.
    destruct (filter _ (tasks (visible c))) as [|row rows]; [reflexivity|].
    cbv zeta.
    destruct (update_writes id b now (begun c)) as [[u|] c1] eqn:W;
      [|reflexivity].
    apply update_writes_effect in W.
    destruct W as (s & pr & vs & _ & _ & _ & C).
    destruct (fetch_task id (committed c1)) as [[t|] c2] eqn:F; [|reflexivity].
    cbn [fst sent_tasks forallb]. rewrite andb_true_r.
    rewrite C in F.
    exact (fetch_task_ascending _ _ _ _
             (in_id_order_updated id b now (begun c) s pr vs O) F).
  - unfold toggle_task, try_catch, bind, SELECT_task_completed, reading.
    destruct (map Task.completed _); reflexivity.
  - unfold toggle_subtask, try_catch, bind, SELECT_subtask_completed, reading.
    destruct (map Subtask.completed _); reflexivity.
  - unfold delete_task, try_catch, bind, DELETE_task.
    destruct (filter _ (tasks (visible c))); reflexivity.
  - reflexivity.
Qed.

(** C6.  Whatever requests the application has served since the tables were
    created, every enriched task of its next answer (the entries of the
    list, the task of a get, the task a creation or an update sends back)
    has its subtasks in ascending id order.  The list orders them with ORDER
    BY id; the other three queries have no ORDER BY and send the rows as
    the table holds them, which is in id order because every subtask row is
    appended with the next AUTO_INCREMENT id and no handler moves a row. *)
Theorem subtasks_sent_in_id_order
    (history : list (Request * timestamp)) (r : Request) (now : timestamp) :
  forallb (fun t => ascending (subtask_ids t))
          (sent_tasks (fst (route r now (serve history empty_conn))))
  = true.
Proof.
  assert (O : in_id_order (serve history empty_conn)).
  { apply serve_in_id_order. exact in_id_order_empty. }
  exact (route_sent_ascending r now (serve history empty_conn) O).
Qed.

Example sample_history_get :
  map subtask_ids
      (sent_tasks (fst (route (GET_tasks_id 1) 1000
                              (serve sample_history empty_conn))))
  = [[3; 4]]
  /\ map subtask_ids
         (sent_tasks (fst (route (POST_tasks sample_create) 1000
                                 (serve sample_history empty_conn))))
     = [[7; 8]]
  /\ map subtask_ids
         (sent_tasks (fst (route (PUT_tasks_id 2 sample_update) 1000
                                 (serve sample_history empty_conn))))
     = [[7; 8]]
  /\ map subtask_ids
         (sent_tasks (fst (route GET_tasks 1000
                                 (serve sample_history empty_conn))))
     = [[5; 6]; [3; 4]].
Proof.
  repeat split; vm_compute; reflexivity.
Qed.
